(** * tsetmc-pusher: the market repository, the subscription broker and
      the ingestion client, embedded from the Python sources

    - [repository.py]: [MarketRealtimeData] and its apply/update methods;
    - [websocket.py]: [InstrumentChannel], the (un)subscribe functions, the
      serialisers and [TsetmcWebsocket.handle_connection_message];
    - [client.py]: [TsetmcClient.process_message].

    Python objects that are mutated in place live in lists that play the
    role of the owning collection; a mutation of the object found by a
    [next(...)] scan is an update of the list at the index the scan stopped
    at.  A Python exception is an explicit outcome that keeps the state
    reached when it was raised. *)

From Stdlib Require Import ZArith List String Ascii Bool Lia.
From stdpp Require Import base decidable option list gmap strings pretty.
Import ListNotations.

Set Warnings "-register-all,-clear-no-such-hyp".

Local Open Scope string_scope.
Local Open Scope list_scope.

(** ** Python exceptions and outcomes *)

Inductive Exn : Type :=
| IndexError
| KeyError
| StopIteration
| AttributeError
| TypeError
| ValueError.

(** The result of running a statement sequence over a state of type [S]:
    it ran to its end, or it raised with the state mutated so far. *)
Inductive Outcome (S : Type) : Type :=
| Done (s : S)
| Raised (e : Exn) (s : S).

Arguments Done {S} s.
Arguments Raised {S} e s.

Definition state_of {S : Type} (o : Outcome S) : S :=
  match o with
  | Done s => s
  | Raised _ s => s
  end.


Definition bind_outcome {S T : Type} (o : Outcome S) (wrap : S -> T)
    (k : S -> Outcome T) : Outcome T :=
  match o with
  | Done s => k s
  | Raised e s => Raised e (wrap s)
  end.

(** ** The instrument records of [tse_utils] (given data shapes) *)

Record InstrumentIdentification : Type := {
  isin : string;
  tsetmc_code : string;
  ticker : string;
  name_persian : string
}.

Record Date : Type := { year : Z; month : Z; day : Z }.

Record Time : Type := { hour : Z; minute : Z; second : Z; microsecond : Z }.

(** A [datetime]: [dt_time] is what [datetime.time()] returns. *)
Record DateTime : Type := { dt_date : Date; dt_time : Time }.

Definition combine (d : Date) (t : Time) : DateTime :=
  {| dt_date := d; dt_time := t |}.

Record TradeCandle : Type := {
  previous_price : Z;
  close_price : Z;
  last_price : Z;
  open_price : Z;
  max_price : Z;
  min_price : Z;
  trade_volume : Z;
  trade_value : Z;
  trade_num : Z;
  last_trade_datetime : option DateTime
}.

Record OrderBookRowSide : Type := { ob_num : Z; ob_volume : Z; ob_price : Z }.

Record OrderBookRow : Type := {
  demand : OrderBookRowSide;
  supply : OrderBookRowSide
}.

Record OrderBook : Type := { rows : list OrderBookRow }.

Record ClientTypeTrade : Type := { ct_num : Z; ct_volume : Z }.

Record ClientTypeSide : Type := { buy : ClientTypeTrade; sell : ClientTypeTrade }.

Record ClientType : Type := { legal : ClientTypeSide; natural : ClientTypeSide }.

Record OrderLimitations : Type := { lim_max_price : Z; lim_min_price : Z }.

Record Instrument : Type := {
  identification : InstrumentIdentification;
  intraday_trade_candle : TradeCandle;
  orderbook : OrderBook;
  client_type : ClientType;
  order_limitations : OrderLimitations
}.

(** One record of a market-watch trade scan ([MarketWatchTradeData]). *)
Record MarketWatchTradeData : Type := {
  mw_identification : InstrumentIdentification;
  mw_intraday_trade_candle : TradeCandle;
  last_trade_time : Time;
  mw_orderbook : OrderBook
}.

(** One record of a market-watch client-type scan
    ([MarketWatchClientTypeData]): the class extends [ClientType], so the
    record is itself a client type, with [legal] and [natural], and carries
    the tsetmc code besides; it has no attribute [client_type]. *)
Record MarketWatchClientTypeData : Type := {
  mwct_tsetmc_code : string;
  mwct_legal : ClientTypeSide;
  mwct_natural : ClientTypeSide
}.

(** The record read as the [ClientType] it extends. *)
Definition mwct_as_client_type (mwi : MarketWatchClientTypeData) : ClientType :=
  {| legal := mwct_legal mwi; natural := mwct_natural mwi |}.

(** What [Instrument(identification)] fills in besides the identification;
    the constructor belongs to [tse_utils], so its values are a parameter. *)
Record InstrumentDefaults : Type := {
  default_candle : TradeCandle;
  default_orderbook : OrderBook;
  default_client_type : ClientType;
  default_limits : OrderLimitations
}.

Definition Instrument_init (dflt : InstrumentDefaults)
    (ident : InstrumentIdentification) : Instrument :=
  {| identification := ident;
     intraday_trade_candle := default_candle dflt;
     orderbook := default_orderbook dflt;
     client_type := default_client_type dflt;
     order_limitations := default_limits dflt |}.

(** ** Equality of the records, as Python's [==] on dataclasses *)

Definition Time_eqb (a b : Time) : bool :=
  (hour a =? hour b)%Z && (minute a =? minute b)%Z
  && (second a =? second b)%Z && (microsecond a =? microsecond b)%Z.

Definition OrderBookRowSide_eqb (a b : OrderBookRowSide) : bool :=
  (ob_num a =? ob_num b)%Z && (ob_volume a =? ob_volume b)%Z
  && (ob_price a =? ob_price b)%Z.

Definition OrderBookRow_eqb (a b : OrderBookRow) : bool :=
  OrderBookRowSide_eqb (demand a) (demand b)
  && OrderBookRowSide_eqb (supply a) (supply b).

Definition ClientTypeTrade_eqb (a b : ClientTypeTrade) : bool :=
  (ct_num a =? ct_num b)%Z && (ct_volume a =? ct_volume b)%Z.

Definition ClientTypeSide_eqb (a b : ClientTypeSide) : bool :=
  ClientTypeTrade_eqb (buy a) (buy b) && ClientTypeTrade_eqb (sell a) (sell b).

Definition ClientType_eqb (a b : ClientType) : bool :=
  ClientTypeSide_eqb (legal a) (legal b)
  && ClientTypeSide_eqb (natural a) (natural b).

(** [instrument.client_type != mwi]: the stored client type and the record
    compare by the eight fields they share, and are unequal when one of
    them differs. *)
Definition client_type_ne (stored : ClientType) (mwi : MarketWatchClientTypeData)
    : bool :=
  negb (ClientType_eqb stored (mwct_as_client_type mwi)).

(** [mwi.client_type]: the record has no such attribute. *)
Definition mwi_client_type (mwi : MarketWatchClientTypeData) : Exn + ClientType :=
  inl AttributeError.

(** ** repository.py *)

(** A call the repository makes to one of the pusher callbacks that
    [TsetmcWebsocket.set_market_realtime_data_pushers] installs on it. *)
Inductive SinkCall : Type :=
| CallPusherTradeData (instruments : list Instrument)
| CallPusherOrderbookData (instruments : list (Instrument * list nat))
| CallPusherClienttypeData (instruments : list Instrument).

(** [next((x for x in instruments if x.identification.isin == i), None)],
    with the index the scan stops at. *)
Fixpoint find_by_isin (i : string) (instruments : list Instrument)
    : option (nat * Instrument) :=
  match instruments with
  | [] => None
  | x :: rest =>
      if String.eqb (isin (identification x)) i then Some (0, x)
      else match find_by_isin i rest with
           | Some (n, y) => Some (S n, y)
           | None => None
           end
  end.

(** The same scan on [identification.tsetmc_code]. *)
Fixpoint find_by_tsetmc_code (c : string) (instruments : list Instrument)
    : option (nat * Instrument) :=
  match instruments with
  | [] => None
  | x :: rest =>
      if String.eqb (tsetmc_code (identification x)) c then Some (0, x)
      else match find_by_tsetmc_code c rest with
           | Some (n, y) => Some (S n, y)
           | None => None
           end
  end.

Definition update_instrument_client_type (instrument_ct mwi_ct : ClientType)
    : ClientType :=
  {| legal :=
       {| buy := {| ct_num := ct_num (buy (legal mwi_ct));
                    ct_volume := ct_volume (buy (legal mwi_ct)) |};
          sell := {| ct_num := ct_num (sell (legal mwi_ct));
                     ct_volume := ct_volume (sell (legal mwi_ct)) |} |};
     natural :=
       {| buy := {| ct_num := ct_num (buy (natural mwi_ct));
                    ct_volume := ct_volume (buy (natural mwi_ct)) |};
          sell := {| ct_num := ct_num (sell (natural mwi_ct));
                     ct_volume := ct_volume (sell (natural mwi_ct)) |} |} |}.

Definition set_client_type (x : Instrument) (c : ClientType) : Instrument :=
  {| identification := identification x;
     intraday_trade_candle := intraday_trade_candle x;
     orderbook := orderbook x;
     client_type := c;
     order_limitations := order_limitations x |}.

(** The body of the loop of [apply_new_client_type] for one record: the
    arguments of [update_instrument_client_type] are evaluated before the
    call, and [mwi.client_type] raises. *)
Definition apply_client_type_record (instruments : list Instrument)
    (mwi : MarketWatchClientTypeData) : Outcome (list Instrument) :=
  match find_by_tsetmc_code (mwct_tsetmc_code mwi) instruments with
  | Some (n, instrument) =>
      if client_type_ne (client_type instrument) mwi
      then match mwi_client_type mwi with
           | inl e => Raised e instruments
           | inr mwi_ct =>
               Done (<[n := set_client_type instrument
                              (update_instrument_client_type
                                 (client_type instrument) mwi_ct)]> instruments)
           end
      else Done instruments
  | None => Done instruments
  end.

Fixpoint client_type_loop (client_type_data : list MarketWatchClientTypeData)
    (instruments : list Instrument) : Outcome (list Instrument) :=
  match client_type_data with
  | [] => Done instruments
  | mwi :: rest =>
      match apply_client_type_record instruments mwi with
      | Done instruments' => client_type_loop rest instruments'
      | Raised e instruments' => Raised e instruments'
      end
  end.

(** [apply_new_client_type]: the outcome over the instruments and the pusher
    calls made during it (the method's body holds no call of a pusher). *)
Definition apply_new_client_type (instruments : list Instrument)
    (client_type_data : list MarketWatchClientTypeData)
    : Outcome (list Instrument) * list SinkCall :=
  (client_type_loop client_type_data instruments, []).

Definition update_instrument_orderbook_row (instrument_obr mwi_obr : OrderBookRow)
    : OrderBookRow :=
  {| demand := {| ob_num := ob_num (demand mwi_obr);
                  ob_volume := ob_volume (demand mwi_obr);
                  ob_price := ob_price (demand mwi_obr) |};
     supply := {| ob_num := ob_num (supply mwi_obr);
                  ob_volume := ob_volume (supply mwi_obr);
                  ob_price := ob_price (supply mwi_obr) |} |}.

(** [today] is the date of [datetime.today()] at the call. *)
Definition update_instrument_trade_data (today : Date) (instrument : Instrument)
    (mwi : MarketWatchTradeData) : Instrument :=
  let c := mw_intraday_trade_candle mwi in
  {| identification := identification instrument;
     intraday_trade_candle :=
       {| previous_price := previous_price c;
          close_price := close_price c;
          last_price := last_price c;
          open_price := open_price c;
          max_price := max_price c;
          min_price := min_price c;
          trade_volume := trade_volume c;
          trade_value := trade_value c;
          trade_num := trade_num c;
          last_trade_datetime := Some (combine today (last_trade_time mwi)) |};
     orderbook := orderbook instrument;
     client_type := client_type instrument;
     order_limitations := order_limitations instrument |}.

(** [last_trade_datetime and last_trade_datetime.time() == t]. *)
Definition same_last_trade_time (c : TradeCandle) (t : Time) : bool :=
  match last_trade_datetime c with
  | Some dt => Time_eqb (dt_time dt) t
  | None => false
  end.

(** [for rn, row in enumerate(mwi.orderbook.rows)], from rank [rn] on:
    [stored[rn]] raises [IndexError] past the end of the stored rows. *)
Fixpoint orderbook_loop (rn : nat) (incoming stored : list OrderBookRow)
    : Outcome (list OrderBookRow) :=
  match incoming with
  | [] => Done stored
  | row :: rest =>
      match stored !! rn with
      | None => Raised IndexError stored
      | Some instrument_obr =>
          orderbook_loop (S rn) rest
            (if negb (OrderBookRow_eqb row instrument_obr)
             then <[rn := update_instrument_orderbook_row instrument_obr row]> stored
             else stored)
      end
  end.

Definition set_rows (x : Instrument) (r : list OrderBookRow) : Instrument :=
  {| identification := identification x;
     intraday_trade_candle := intraday_trade_candle x;
     orderbook := {| rows := r |};
     client_type := client_type x;
     order_limitations := order_limitations x |}.

(** The body of the loop of [apply_new_trade_data] for one record. *)
Definition apply_trade_record (dflt : InstrumentDefaults) (today : Date)
    (instruments : list Instrument) (mwi : MarketWatchTradeData)
    : Outcome (list Instrument) :=
  let '(n, instrument, instruments1) :=
    match find_by_isin (isin (mw_identification mwi)) instruments with
    | Some (n, instrument) => (n, instrument, instruments)
    | None =>
        let instrument :=
          Instrument_init dflt
            {| isin := isin (mw_identification mwi);
               tsetmc_code := tsetmc_code (mw_identification mwi);
               ticker := ticker (mw_identification mwi);
               name_persian := name_persian (mw_identification mwi) |} in
        (length instruments, instrument, instruments ++ [instrument])
    end in
  let instrument1 :=
    if negb (same_last_trade_time (intraday_trade_candle instrument)
                                  (last_trade_time mwi))
    then update_instrument_trade_data today instrument mwi
    else instrument in
  bind_outcome
    (orderbook_loop 0 (rows (mw_orderbook mwi)) (rows (orderbook instrument1)))
    (fun r => <[n := set_rows instrument1 r]> instruments1)
    (fun r => Done (<[n := set_rows instrument1 r]> instruments1)).

Fixpoint trade_data_loop (dflt : InstrumentDefaults) (today : Date)
    (trade_data : list MarketWatchTradeData) (instruments : list Instrument)
    : Outcome (list Instrument) :=
  match trade_data with
  | [] => Done instruments
  | mwi :: rest =>
      match apply_trade_record dflt today instruments mwi with
      | Done instruments' => trade_data_loop dflt today rest instruments'
      | Raised e instruments' => Raised e instruments'
      end
  end.

(** [apply_new_trade_data]: the outcome over the instruments and the pusher
    calls made during it (the method's body holds no call of a pusher). *)
Definition apply_new_trade_data (dflt : InstrumentDefaults) (today : Date)
    (instruments : list Instrument) (trade_data : list MarketWatchTradeData)
    : Outcome (list Instrument) * list SinkCall :=
  (trade_data_loop dflt today trade_data instruments, []).

(** ** websocket.py *)

(** A downstream connection, by its identity (the sets hash connections by
    identity). *)
Definition ClientConnection : Type := nat.

Record InstrumentChannel : Type := {
  ch_isin : string;
  trade_subscribers : gset ClientConnection;
  orderbook_subscribers : gset ClientConnection;
  clienttype_subscribers : gset ClientConnection
}.

Definition InstrumentChannel_init (i : string) : InstrumentChannel :=
  {| ch_isin := i;
     trade_subscribers := ∅;
     orderbook_subscribers := ∅;
     clienttype_subscribers := ∅ |}.

Definition set_trade_subscribers (ch : InstrumentChannel)
    (s : gset ClientConnection) : InstrumentChannel :=
  {| ch_isin := ch_isin ch;
     trade_subscribers := s;
     orderbook_subscribers := orderbook_subscribers ch;
     clienttype_subscribers := clienttype_subscribers ch |}.

Definition set_orderbook_subscribers (ch : InstrumentChannel)
    (s : gset ClientConnection) : InstrumentChannel :=
  {| ch_isin := ch_isin ch;
     trade_subscribers := trade_subscribers ch;
     orderbook_subscribers := s;
     clienttype_subscribers := clienttype_subscribers ch |}.

Definition set_clienttype_subscribers (ch : InstrumentChannel)
    (s : gset ClientConnection) : InstrumentChannel :=
  {| ch_isin := ch_isin ch;
     trade_subscribers := trade_subscribers ch;
     orderbook_subscribers := orderbook_subscribers ch;
     clienttype_subscribers := s |}.

(** [set.add]. *)
Definition set_add (s : gset ClientConnection) (c : ClientConnection)
    : gset ClientConnection :=
  {[c]} ∪ s.

(** [set.remove]: [inl KeyError] when the element is not in the set. *)
Definition set_remove (s : gset ClientConnection) (c : ClientConnection)
    : Exn + gset ClientConnection :=
  if decide (c ∈ s) then inr (s ∖ {[c]}) else inl KeyError.

Definition subscribe_trade (client : ClientConnection)
    (instrument_channel : InstrumentChannel) : InstrumentChannel :=
  set_trade_subscribers instrument_channel
    (set_add (trade_subscribers instrument_channel) client).

Definition subscribe_orderbook (client : ClientConnection)
    (instrument_channel : InstrumentChannel) : InstrumentChannel :=
  set_orderbook_subscribers instrument_channel
    (set_add (orderbook_subscribers instrument_channel) client).

Definition subscribe_clienttype (client : ClientConnection)
    (instrument_channel : InstrumentChannel) : InstrumentChannel :=
  set_clienttype_subscribers instrument_channel
    (set_add (clienttype_subscribers instrument_channel) client).

Definition subscribe_all (client : ClientConnection)
    (instrument_channel : InstrumentChannel) : InstrumentChannel :=
  subscribe_clienttype client
    (subscribe_orderbook client (subscribe_trade client instrument_channel)).

(** [try: ....remove(client) / except KeyError: pass]. *)
Definition unsubscribe_trade (client : ClientConnection)
    (instrument_channel : InstrumentChannel) : InstrumentChannel :=
  match set_remove (trade_subscribers instrument_channel) client with
  | inr s => set_trade_subscribers instrument_channel s
  | inl _ => instrument_channel
  end.

Definition unsubscribe_orderbook (client : ClientConnection)
    (instrument_channel : InstrumentChannel) : InstrumentChannel :=
  match set_remove (orderbook_subscribers instrument_channel) client with
  | inr s => set_orderbook_subscribers instrument_channel s
  | inl _ => instrument_channel
  end.

Definition unsubscribe_clienttype (client : ClientConnection)
    (instrument_channel : InstrumentChannel) : InstrumentChannel :=
  match set_remove (clienttype_subscribers instrument_channel) client with
  | inr s => set_clienttype_subscribers instrument_channel s
  | inl _ => instrument_channel
  end.

Definition unsubscribe_all (client : ClientConnection)
    (instrument_channel : InstrumentChannel) : InstrumentChannel :=
  unsubscribe_clienttype client
    (unsubscribe_orderbook client (unsubscribe_trade client instrument_channel)).

(** *** The values put on the wire *)

Inductive PyVal : Type :=
| PyNone
| PyInt (z : Z)
| PyStr (s : string)
| PyList (l : list PyVal)
| PyDict (d : list (string * PyVal)).

(** A [dict] with [str] keys, in insertion order. *)
Definition Dict : Type := list (string * PyVal).

(** [d[k] = v]. *)
Fixpoint dict_set (k : string) (v : PyVal) (d : Dict) : Dict :=
  match d with
  | [] => [(k, v)]
  | (k', v') :: rest =>
      if String.eqb k' k then (k', v) :: rest else (k', v') :: dict_set k v rest
  end.

(** [a | b]. *)
Definition dict_union (a b : Dict) : Dict :=
  fold_left (fun acc kv => dict_set (fst kv) (snd kv) acc) b a.

(** The truth value of a returned [dict] or [None]. *)
Definition truthy_response (r : option Dict) : bool :=
  match r with
  | None => false
  | Some [] => false
  | Some (_ :: _) => true
  end.

(** [f"{z:02}"]. *)
Definition format_02 (z : Z) : string :=
  if ((0 <=? z) && (z <? 10))%Z then "0" +:+ pretty z else pretty z.

Definition ltd_display (ltd : DateTime) : string :=
  pretty (year (dt_date ltd)) +:+ "/" +:+ format_02 (month (dt_date ltd))
  +:+ "/" +:+ format_02 (day (dt_date ltd)) +:+ " "
  +:+ format_02 (hour (dt_time ltd)) +:+ ":" +:+ format_02 (minute (dt_time ltd))
  +:+ ":" +:+ format_02 (second (dt_time ltd)).

(** [instrument_data_trade]: [ltd.year] raises [AttributeError] while no
    trade has been recorded ([ltd] is [None]). *)
Definition instrument_data_trade (instrument : Instrument) : Exn + Dict :=
  let c := intraday_trade_candle instrument in
  match last_trade_datetime c with
  | None => inl AttributeError
  | Some ltd =>
      inr [("trade",
            PyList [PyInt (close_price c); PyInt (last_price c);
                    PyStr (ltd_display ltd); PyInt (max_price c);
                    PyInt (min_price c); PyInt (open_price c);
                    PyInt (previous_price c); PyInt (trade_num c);
                    PyInt (trade_value c); PyInt (trade_volume c)])]
  end.

Definition orderbook_row_entry (rn : nat) (x : OrderBookRow) : PyVal :=
  PyList [PyInt (Z.of_nat rn);
          PyInt (ob_num (demand x)); PyInt (ob_price (demand x));
          PyInt (ob_volume (demand x));
          PyInt (ob_num (supply x)); PyInt (ob_price (supply x));
          PyInt (ob_volume (supply x))].

(** [enumerate(l)], counting from [rn]. *)
Fixpoint enumerate_from {A : Type} (rn : nat) (l : list A) : list (nat * A) :=
  match l with
  | [] => []
  | x :: rest => (rn, x) :: enumerate_from (S rn) rest
  end.

(** [rn in rows]. *)
Definition nat_in (rn : nat) (rows_arg : list nat) : bool :=
  existsb (Nat.eqb rn) rows_arg.

(** [instrument_data_orderbook_specific_rows]: [rows=None] (the default)
    raises [TypeError] at [rn in rows] as soon as there is a row. *)
Definition instrument_data_orderbook_specific_rows (instrument : Instrument)
    (rows_arg : option (list nat)) : Exn + Dict :=
  match rows_arg with
  | None =>
      match rows (orderbook instrument) with
      | [] => inr [("orderbook", PyList [])]
      | _ :: _ => inl TypeError
      end
  | Some wanted =>
      inr [("orderbook",
            PyList (map (fun p => orderbook_row_entry (fst p) (snd p))
                      (filter (fun p => nat_in (fst p) wanted)
                         (enumerate_from 0 (rows (orderbook instrument))))))]
  end.

Definition instrument_data_orderbook (instrument : Instrument) : Exn + Dict :=
  inr [("orderbook",
        PyList (map (fun p => orderbook_row_entry (fst p) (snd p))
                  (enumerate_from 0 (rows (orderbook instrument)))))].

Definition instrument_data_clienttype (instrument : Instrument) : Exn + Dict :=
  let c := client_type instrument in
  inr [("clienttype",
        PyList [PyInt (ct_num (buy (legal c))); PyInt (ct_volume (buy (legal c)));
                PyInt (ct_num (sell (legal c))); PyInt (ct_volume (sell (legal c)));
                PyInt (ct_num (buy (natural c))); PyInt (ct_volume (buy (natural c)));
                PyInt (ct_num (sell (natural c)));
                PyInt (ct_volume (sell (natural c)))])].

Definition instrument_data_thresholds (instrument : Instrument) : Exn + Dict :=
  inr [("thresholds",
        PyList [PyInt (lim_max_price (order_limitations instrument));
                PyInt (lim_min_price (order_limitations instrument))])].

(** [instrument_data_all]: the four dicts are built left to right, then
    merged. *)
Definition instrument_data_all (instrument : Instrument) : Exn + Dict :=
  match instrument_data_thresholds instrument with
  | inl e => inl e
  | inr a =>
      match instrument_data_trade instrument with
      | inl e => inl e
      | inr b =>
          match instrument_data_orderbook instrument with
          | inl e => inl e
          | inr c =>
              match instrument_data_clienttype instrument with
              | inl e => inl e
              | inr d => inr (dict_union (dict_union (dict_union a b) c) d)
              end
          end
      end
  end.

(** *** Change dispatch *)

(** [next((x for x in channels if x.isin == i), None)]. *)
Fixpoint find_channel_by_isin (i : string) (channels : list InstrumentChannel)
    : option (nat * InstrumentChannel) :=
  match channels with
  | [] => None
  | x :: rest =>
      if String.eqb (ch_isin x) i then Some (0, x)
      else match find_channel_by_isin i rest with
           | Some (n, y) => Some (S n, y)
           | None => None
           end
  end.

(** One [broadcast(clients, json.dumps(payload))]. *)
Record Broadcast : Type := {
  bc_clients : gset ClientConnection;
  bc_payload : Dict
}.

(** The truth value of a subscriber set. *)
Definition nonempty_set (s : gset ClientConnection) : bool :=
  negb (bool_decide (s = ∅)).

(** The three pushers share one loop: scan for the channel of the
    instrument's isin, and broadcast to its subscriber set when there is one
    and it is not empty. *)
Fixpoint pusher_loop {A : Type} (the_isin : A -> string)
    (subscribers : InstrumentChannel -> gset ClientConnection)
    (data : A -> Exn + Dict) (channels : list InstrumentChannel)
    (instruments : list A) : list Broadcast * option Exn :=
  match instruments with
  | [] => ([], None)
  | instrument :: rest =>
      match find_channel_by_isin (the_isin instrument) channels with
      | Some (_, channel) =>
          if nonempty_set (subscribers channel) then
            match data instrument with
            | inl e => ([], Some e)
            | inr d =>
                let '(sent, e) :=
                  pusher_loop the_isin subscribers data channels rest in
                ({| bc_clients := subscribers channel;
                    bc_payload := [(ch_isin channel, PyDict d)] |} :: sent, e)
            end
          else pusher_loop the_isin subscribers data channels rest
      | None => pusher_loop the_isin subscribers data channels rest
      end
  end.

Definition pusher_trade_data (channels : list InstrumentChannel)
    (instruments : list Instrument) : list Broadcast * option Exn :=
  pusher_loop (fun x => isin (identification x)) trade_subscribers
    instrument_data_trade channels instruments.

Definition pusher_orderbook_data (channels : list InstrumentChannel)
    (instruments : list (Instrument * list nat)) : list Broadcast * option Exn :=
  pusher_loop (fun p => isin (identification (fst p))) orderbook_subscribers
    (fun p => instrument_data_orderbook_specific_rows (fst p) (Some (snd p)))
    channels instruments.

Definition pusher_clienttype_data (channels : list InstrumentChannel)
    (instruments : list Instrument) : list Broadcast * option Exn :=
  pusher_loop (fun x => isin (identification x)) clienttype_subscribers
    instrument_data_clienttype channels instruments.

(** *** Commands *)

(** [s.split(sep)] for a one-character separator. *)
Fixpoint split_on (sep : ascii) (s : string) : list string :=
  match s with
  | EmptyString => [EmptyString]
  | String c rest =>
      if Ascii.eqb c sep then EmptyString :: split_on sep rest
      else match split_on sep rest with
           | [] => [String c EmptyString]
           | h :: t => String c h :: t
           end
  end.

(** [s in l] for a list of strings. *)
Definition str_in (s : string) (l : list string) : bool :=
  existsb (String.eqb s) l.

(** [d[k]] on a literal table. *)
Fixpoint table_get {A : Type} (k : string) (d : list (string * A)) : option A :=
  match d with
  | [] => None
  | (k', v) :: rest => if String.eqb k' k then Some v else table_get k rest
  end.

Definition acceptable_actions : list string := ["0"; "1"].

Definition acceptable_channels : list string :=
  ["all"; "trade"; "orderbook"; "clienttype"].

Definition get_channel_action_func (action channel : string)
    : Exn + (ClientConnection -> InstrumentChannel -> InstrumentChannel) :=
  let return_values :=
    [("1", [("all", subscribe_all); ("trade", subscribe_trade);
            ("orderbook", subscribe_orderbook);
            ("clienttype", subscribe_clienttype)]);
     ("0", [("all", unsubscribe_all); ("trade", unsubscribe_trade);
            ("orderbook", unsubscribe_orderbook);
            ("clienttype", unsubscribe_clienttype)])] in
  match table_get action return_values with
  | None => inl KeyError
  | Some by_channel =>
      match table_get channel by_channel with
      | None => inl KeyError
      | Some f => inr f
      end
  end.

(** A serialiser's result as the value stored under an isin. *)
Definition as_value (r : Exn + Dict) : Exn + PyVal :=
  match r with
  | inl e => inl e
  | inr d => inr (PyDict d)
  end.

Definition get_initial_data_func (action channel : string)
    : Exn + (Instrument -> Exn + PyVal) :=
  let return_values :=
    [("1", [("all", fun x => as_value (instrument_data_all x));
            ("trade", fun x => as_value (instrument_data_trade x));
            ("orderbook", fun x => as_value (instrument_data_orderbook x));
            ("clienttype", fun x => as_value (instrument_data_clienttype x))]);
     ("0", [("all", fun _ => inr PyNone); ("trade", fun _ => inr PyNone);
            ("orderbook", fun _ => inr PyNone);
            ("clienttype", fun _ => inr PyNone)])] in
  match table_get action return_values with
  | None => inl KeyError
  | Some by_channel =>
      match table_get channel by_channel with
      | None => inl KeyError
      | Some f => inr f
      end
  end.

(** How a call ends: it returns a value or it raises. *)
Inductive Completion (A : Type) : Type :=
| Returns (a : A)
| Raises (e : Exn).

Arguments Returns {A} a.
Arguments Raises {A} e.

(** [next((x for x in channels), None)]: the first channel, whatever its
    isin, with its index. *)
Definition first_channel (channels : list InstrumentChannel)
    : option (nat * InstrumentChannel) :=
  match channels with
  | [] => None
  | x :: _ => Some (0, x)
  end.

(** [for counter, isin in enumerate(isins)] of [handle_connection_message],
    from [counter] on. *)
Fixpoint subscription_loop (client : ClientConnection)
    (channel_action_func : ClientConnection -> InstrumentChannel -> InstrumentChannel)
    (initial_data_func : Instrument -> Exn + PyVal)
    (instruments : list (option Instrument)) (counter : nat)
    (isins : list string) (channels : list InstrumentChannel)
    (initial_data : Dict) : list InstrumentChannel * Completion (option Dict) :=
  match isins with
  | [] => (channels, Returns (Some initial_data))
  | i :: rest =>
      let '(n, channel, channels1) :=
        match first_channel channels with
        | Some (n, channel) => (n, channel, channels)
        | None =>
            let channel := InstrumentChannel_init i in
            (length channels, channel, channels ++ [channel])
        end in
      let channels2 := <[n := channel_action_func client channel]> channels1 in
      match instruments !! counter with
      | None => (channels2, Raises IndexError)
      | Some None =>
          subscription_loop client channel_action_func initial_data_func
            instruments (S counter) rest channels2 initial_data
      | Some (Some instrument) =>
          match initial_data_func instrument with
          | inl e => (channels2, Raises e)
          | inr v =>
              subscription_loop client channel_action_func initial_data_func
                instruments (S counter) rest channels2 (dict_set i v initial_data)
          end
      end
  end.

(** [next((x for x in isins if len(x) != 12), None)]. *)
Definition fake_isin (isins : list string) : option string :=
  List.find (fun x => negb (Nat.eqb (String.length x) 12)) isins.

(** The truth value of [fake_isin]: [None] and the empty string are false. *)
Definition truthy_str (o : option string) : bool :=
  match o with
  | None => false
  | Some EmptyString => false
  | Some (String _ _) => true
  end.

(** Modelled from the spec: [MarketRealtimeData.get_instruments], which
    [handle_connection_message] calls and [repository.py] does not define.
    The spec's [snapshot(identity)] "returns a copy-safe read of the current
    full instrument record, or a not-found signal if the identity is
    unknown"; the caller indexes the result by the position of the isin. *)
Definition get_instruments (instruments : list Instrument) (isins : list string)
    : list (option Instrument) :=
  map (fun i => option_map snd (find_by_isin i instruments)) isins.

Section Handler.

(** The repository's lookup, as the handler calls it. *)
Variable lookup : list Instrument -> list string -> list (option Instrument).

Definition handle_connection_message (repo : list Instrument)
    (client : ClientConnection) (message : string)
    (channels : list InstrumentChannel)
    : list InstrumentChannel * Completion (option Dict) :=
  let message_parts := split_on "." message in
  if negb (Nat.eqb (length message_parts) 3) then (channels, Returns None)
  else
    match message_parts with
    | [part0; part1; part2] =>
        if negb (str_in part0 acceptable_actions) then (channels, Returns None)
        else if negb (str_in part1 acceptable_channels) then (channels, Returns None)
        else
          let isins := split_on "," part2 in
          if truthy_str (fake_isin isins) then (channels, Returns None)
          else
            let instruments := lookup repo isins in
            match get_channel_action_func part0 part1 with
            | inl e => (channels, Raises e)
            | inr channel_action_func =>
                match get_initial_data_func part0 part1 with
                | inl e => (channels, Raises e)
                | inr initial_data_func =>
                    subscription_loop client channel_action_func
                      initial_data_func instruments 0 isins channels []
                end
            end
    | _ => (channels, Raises IndexError)
    end.

(** [remove_from_channels]. *)
Definition remove_from_channels (client : ClientConnection)
    (channels : list InstrumentChannel) : list InstrumentChannel :=
  map (unsubscribe_all client) channels.

(** What one received message does to a connection being handled. *)
Record Handled : Type := {
  hd_channels : list InstrumentChannel;
  hd_sent : list Dict;
  hd_open : bool
}.

(** One turn of the [async for] of [handle_connection]: the response is sent
    when it is truthy; an exception of the handler leaves the loop through
    [finally], which removes the connection from every channel. *)
Definition handle_connection_turn (repo : list Instrument)
    (client : ClientConnection) (message : string)
    (channels : list InstrumentChannel) : Handled :=
  match handle_connection_message repo client message channels with
  | (channels', Returns response) =>
      {| hd_channels := channels';
         hd_sent := match response with
                    | Some d => if truthy_response response then [d] else []
                    | None => []
                    end;
         hd_open := true |}
  | (channels', Raises _) =>
      {| hd_channels := remove_from_channels client channels';
         hd_sent := [];
         hd_open := false |}
  end.

End Handler.

(** ** client.py *)

(** [f; g] on a mutable object: [g] runs on what [f] left unless [f]
    raised. *)
Definition then_do {S : Type} (f g : S -> Outcome S) (s : S) : Outcome S :=
  match f s with
  | Done s' => g s'
  | Raised e s' => Raised e s'
  end.

(** [obj.field = value]: the value is computed first; when that raises the
    object is left as it is. *)
Definition assign {S A : Type} (value : Exn + A) (store : S -> A -> S) (s : S)
    : Outcome S :=
  match value with
  | inl e => Raised e s
  | inr a => Done (store s a)
  end.

Definition set_candle (x : Instrument) (c : TradeCandle) : Instrument :=
  {| identification := identification x;
     intraday_trade_candle := c;
     orderbook := orderbook x;
     client_type := client_type x;
     order_limitations := order_limitations x |}.

Definition set_limits (x : Instrument) (l : OrderLimitations) : Instrument :=
  {| identification := identification x;
     intraday_trade_candle := intraday_trade_candle x;
     orderbook := orderbook x;
     client_type := client_type x;
     order_limitations := l |}.

(** The candle with its ten fields given one by one. *)
Definition candle_with
    (pp cp lp op xp np tvol tval tn : Z) (ltd : option DateTime) : TradeCandle :=
  {| previous_price := pp; close_price := cp; last_price := lp;
     open_price := op; max_price := xp; min_price := np;
     trade_volume := tvol; trade_value := tval; trade_num := tn;
     last_trade_datetime := ltd |}.

Definition store_close_price (x : Instrument) (v : Z) : Instrument :=
  let c := intraday_trade_candle x in
  set_candle x (candle_with (previous_price c) v (last_price c) (open_price c)
    (max_price c) (min_price c) (trade_volume c) (trade_value c) (trade_num c)
    (last_trade_datetime c)).

Definition store_last_price (x : Instrument) (v : Z) : Instrument :=
  let c := intraday_trade_candle x in
  set_candle x (candle_with (previous_price c) (close_price c) v (open_price c)
    (max_price c) (min_price c) (trade_volume c) (trade_value c) (trade_num c)
    (last_trade_datetime c)).

Definition store_last_trade_datetime (x : Instrument) (v : DateTime) : Instrument :=
  let c := intraday_trade_candle x in
  set_candle x (candle_with (previous_price c) (close_price c) (last_price c)
    (open_price c) (max_price c) (min_price c) (trade_volume c) (trade_value c)
    (trade_num c) (Some v)).

Definition store_max_price (x : Instrument) (v : Z) : Instrument :=
  let c := intraday_trade_candle x in
  set_candle x (candle_with (previous_price c) (close_price c) (last_price c)
    (open_price c) v (min_price c) (trade_volume c) (trade_value c) (trade_num c)
    (last_trade_datetime c)).

Definition store_min_price (x : Instrument) (v : Z) : Instrument :=
  let c := intraday_trade_candle x in
  set_candle x (candle_with (previous_price c) (close_price c) (last_price c)
    (open_price c) (max_price c) v (trade_volume c) (trade_value c) (trade_num c)
    (last_trade_datetime c)).

Definition store_open_price (x : Instrument) (v : Z) : Instrument :=
  let c := intraday_trade_candle x in
  set_candle x (candle_with (previous_price c) (close_price c) (last_price c)
    v (max_price c) (min_price c) (trade_volume c) (trade_value c) (trade_num c)
    (last_trade_datetime c)).

Definition store_previous_price (x : Instrument) (v : Z) : Instrument :=
  let c := intraday_trade_candle x in
  set_candle x (candle_with v (close_price c) (last_price c) (open_price c)
    (max_price c) (min_price c) (trade_volume c) (trade_value c) (trade_num c)
    (last_trade_datetime c)).

Definition store_trade_num (x : Instrument) (v : Z) : Instrument :=
  let c := intraday_trade_candle x in
  set_candle x (candle_with (previous_price c) (close_price c) (last_price c)
    (open_price c) (max_price c) (min_price c) (trade_volume c) (trade_value c) v
    (last_trade_datetime c)).

Definition store_trade_value (x : Instrument) (v : Z) : Instrument :=
  let c := intraday_trade_candle x in
  set_candle x (candle_with (previous_price c) (close_price c) (last_price c)
    (open_price c) (max_price c) (min_price c) (trade_volume c) v (trade_num c)
    (last_trade_datetime c)).

Definition store_trade_volume (x : Instrument) (v : Z) : Instrument :=
  let c := intraday_trade_candle x in
  set_candle x (candle_with (previous_price c) (close_price c) (last_price c)
    (open_price c) (max_price c) (min_price c) v (trade_value c) (trade_num c)
    (last_trade_datetime c)).

Definition store_limit_max_price (x : Instrument) (v : Z) : Instrument :=
  set_limits x {| lim_max_price := v;
                  lim_min_price := lim_min_price (order_limitations x) |}.

Definition store_limit_min_price (x : Instrument) (v : Z) : Instrument :=
  set_limits x {| lim_max_price := lim_max_price (order_limitations x);
                  lim_min_price := v |}.

(** The [k]-th character of a string, as a string. *)
Fixpoint char_at (s : string) (k : nat) : option string :=
  match s, k with
  | EmptyString, _ => None
  | String c _, 0 => Some (String c EmptyString)
  | String _ rest, S k' => char_at rest k'
  end.

(** [data[k]] for a non-negative literal index [k]. *)
Definition py_index (data : PyVal) (k : nat) : Exn + PyVal :=
  match data with
  | PyList l => match l !! k with Some v => inr v | None => inl IndexError end
  | PyStr s => match char_at s k with Some c => inr (PyStr c) | None => inl IndexError end
  | PyDict _ => inl KeyError
  | PyNone | PyInt _ => inl TypeError
  end.

Section Client.

(** [int(s)] and [datetime.fromisoformat(s)] on a string, [None] when they
    raise [ValueError]: the parsers of the Python library. *)
Variable int_of_str : string -> option Z.
Variable fromisoformat : string -> option DateTime.

Definition py_int (v : PyVal) : Exn + Z :=
  match v with
  | PyInt z => inr z
  | PyStr s => match int_of_str s with Some z => inr z | None => inl ValueError end
  | PyNone | PyList _ | PyDict _ => inl TypeError
  end.

Definition py_fromisoformat (v : PyVal) : Exn + DateTime :=
  match v with
  | PyStr s => match fromisoformat s with Some d => inr d | None => inl ValueError end
  | _ => inl TypeError
  end.

(** [int(data[k])]. *)
Definition int_at (data : PyVal) (k : nat) : Exn + Z :=
  match py_index data k with
  | inl e => inl e
  | inr v => py_int v
  end.

Definition message_thresholds (data : PyVal) : Instrument -> Outcome Instrument :=
  then_do (assign (int_at data 0) store_limit_max_price)
          (assign (int_at data 1) store_limit_min_price).

Definition message_trade (data : PyVal) : Instrument -> Outcome Instrument :=
  then_do (assign (int_at data 0) store_close_price)
  (then_do (assign (int_at data 1) store_last_price)
  (then_do (assign (match py_index data 2 with
                    | inl e => inl e
                    | inr v => py_fromisoformat v
                    end) store_last_trade_datetime)
  (then_do (assign (int_at data 3) store_max_price)
  (then_do (assign (int_at data 4) store_min_price)
  (then_do (assign (int_at data 5) store_open_price)
  (then_do (assign (int_at data 6) store_previous_price)
  (then_do (assign (int_at data 7) store_trade_num)
  (then_do (assign (int_at data 8) store_trade_value)
           (assign (int_at data 9) store_trade_volume))))))))).

(** [self.__message_orderbook]: the class defines no such method. *)
Definition message_orderbook (data : PyVal) (x : Instrument) : Outcome Instrument :=
  Raised AttributeError x.

(** The [match channel] statement. *)
Definition dispatch_channel (channel : string) (data : PyVal) (x : Instrument)
    : Outcome Instrument :=
  if String.eqb channel "thresholds" then message_thresholds data x
  else if String.eqb channel "trade" then message_trade data x
  else if String.eqb channel "orderbook" then message_orderbook data x
  else if String.eqb channel "clienttype" then Done x
  else Done x.

(** [for channel, data in channels.items()] on one instrument. *)
Fixpoint channels_loop (items : Dict) (x : Instrument) : Outcome Instrument :=
  match items with
  | [] => Done x
  | (channel, data) :: rest =>
      match dispatch_channel channel data x with
      | Done x' => channels_loop rest x'
      | Raised e x' => Raised e x'
      end
  end.

(** [channels.items()]: only a [dict] has the method. *)
Definition py_items (v : PyVal) : Exn + Dict :=
  match v with
  | PyDict d => inr d
  | _ => inl AttributeError
  end.

(** [process_message], from [message_js = json.loads(message)] on: the
    [next(...)] without a default raises [StopIteration] when no subscribed
    instrument has the isin. *)
Fixpoint process_message (message_js : Dict) (subscribed_instruments : list Instrument)
    : Outcome (list Instrument) :=
  match message_js with
  | [] => Done subscribed_instruments
  | (i, channels) :: rest =>
      match find_by_isin i subscribed_instruments with
      | None => Raised StopIteration subscribed_instruments
      | Some (n, instrument) =>
          match py_items channels with
          | inl e => Raised e subscribed_instruments
          | inr items =>
              match channels_loop items instrument with
              | Done x => process_message rest (<[n := x]> subscribed_instruments)
              | Raised e x => Raised e (<[n := x]> subscribed_instruments)
              end
          end
      end
  end.

End Client.

(** [sep.join(l)]. *)
Fixpoint str_join (sep : string) (l : list string) : string :=
  match l with
  | [] => ""
  | x :: rest =>
      match rest with
      | [] => x
      | _ :: _ => x +:+ sep +:+ str_join sep rest
      end
  end.

(** The frame [TsetmcClient.subscribe] sends: [f"1.all.{isins}"] with the
    isins of the subscribed instruments joined by commas. *)
Definition subscribe_request (subscribed_instruments : list Instrument) : string :=
  "1.all."
  +:+ str_join "," (map (fun x => isin (identification x)) subscribed_instruments).

(** [c in s] for a character and a string. *)
Fixpoint has_char (c : ascii) (s : string) : bool :=
  match s with
  | EmptyString => false
  | String c' rest => Ascii.eqb c' c || has_char c rest
  end.

(** ** Auxiliary readings of the state *)

(** The eight numbers of a client-type record, in wire order. *)
Definition client_type_fields (c : ClientType) : list Z :=
  [ct_num (buy (legal c)); ct_volume (buy (legal c));
   ct_num (sell (legal c)); ct_volume (sell (legal c));
   ct_num (buy (natural c)); ct_volume (buy (natural c));
   ct_num (sell (natural c)); ct_volume (sell (natural c))].

(** The isins of the stored instruments, in order. *)
Definition isins_of (instruments : list Instrument) : list string :=
  map (fun x => isin (identification x)) instruments.

(** The channel list after the loop has served one identity: the action
    has been applied to the first channel, or to a new channel for the
    identity when there was none. *)
Definition served_once
    (act : ClientConnection -> InstrumentChannel -> InstrumentChannel)
    (client : ClientConnection) (i : string) (channels : list InstrumentChannel)
    : list InstrumentChannel :=
  match channels with
  | [] => [act client (InstrumentChannel_init i)]
  | ch :: rest => act client ch :: rest
  end.

(** What the client stores from the trade entry of the broker when the
    time stamp parses to [ltd]: the nine numbers of the served candle. *)
Definition decoded_candle (served : TradeCandle) (ltd : DateTime) : TradeCandle :=
  candle_with (previous_price served) (close_price served) (last_price served)
    (open_price served) (max_price served) (min_price served)
    (trade_volume served) (trade_value served) (trade_num served) (Some ltd).

(** The channels whose entries [process_message] passes over. *)
Definition passed_over (channel : string) : bool :=
  negb (String.eqb channel "thresholds") && negb (String.eqb channel "trade")
  && negb (String.eqb channel "orderbook").

(** What no handler of the client writes. *)
Definition kept_by_client (x : Instrument)
    : InstrumentIdentification * OrderBook * ClientType :=
  (identification x, orderbook x, client_type x).

(** Whether a client-type record finds a stored instrument whose eight
    fields differ from its own. *)
Definition record_differs (instruments : list Instrument)
    (mwi : MarketWatchClientTypeData) : bool :=
  match find_by_tsetmc_code (mwct_tsetmc_code mwi) instruments with
  | Some (_, instrument) => client_type_ne (client_type instrument) mwi
  | None => false
  end.

(** ** Concrete data for the examples *)

Definition sample_identification (i c : string) : InstrumentIdentification :=
  {| isin := i; tsetmc_code := c; ticker := "FOLD"; name_persian := "Foolad" |}.

Definition sample_date : Date := {| year := 2024; month := 1; day := 6 |}.

Definition sample_time (h m : Z) : Time :=
  {| hour := h; minute := m; second := 0; microsecond := 0 |}.

Definition sample_candle (last : Z) (ltd : option DateTime) : TradeCandle :=
  candle_with 5000 5010 last 4990 5060 4980 120000 601200000 37 ltd.

Definition sample_row (bid ask : Z) : OrderBookRow :=
  {| demand := {| ob_num := 3; ob_volume := 1500; ob_price := bid |};
     supply := {| ob_num := 2; ob_volume := 900; ob_price := ask |} |}.

Definition sample_client_type (legal_buy : Z) : ClientType :=
  {| legal := {| buy := {| ct_num := 1; ct_volume := legal_buy |};
                 sell := {| ct_num := 2; ct_volume := 700 |} |};
     natural := {| buy := {| ct_num := 40; ct_volume := 9000 |};
                   sell := {| ct_num := 35; ct_volume := 8800 |} |} |}.

(** A client-type record for the sample instruments' tsetmc code. *)
Definition sample_client_type_data (legal_buy : Z) : MarketWatchClientTypeData :=
  {| mwct_tsetmc_code := "46348559193224090";
     mwct_legal := legal (sample_client_type legal_buy);
     mwct_natural := natural (sample_client_type legal_buy) |}.

Definition sample_limits : OrderLimitations :=
  {| lim_max_price := 5250; lim_min_price := 4750 |}.

Definition sample_defaults : InstrumentDefaults :=
  {| default_candle := candle_with 0 0 0 0 0 0 0 0 0 None;
     default_orderbook := {| rows := repeat (sample_row 0 0) 5 |};
     default_client_type := sample_client_type 0;
     default_limits := {| lim_max_price := 0; lim_min_price := 0 |} |}.

(** A stored instrument: last trade at 09:30, three order-book rows. *)
Definition sample_instrument (i : string) : Instrument :=
  {| identification := sample_identification i "46348559193224090";
     intraday_trade_candle :=
       sample_candle 5020 (Some (combine sample_date (sample_time 9 30)));
     orderbook := {| rows := [sample_row 5020 5030; sample_row 5010 5040;
                              sample_row 5000 5050] |};
     client_type := sample_client_type 600;
     order_limitations := sample_limits |}.

(** A market-watch record for the instrument: trade time [t], last price
    [last] and the three rows [r]. *)
Definition sample_trade_data (i : string) (last : Z) (t : Time)
    (r : list OrderBookRow) : MarketWatchTradeData :=
  {| mw_identification := sample_identification i "46348559193224090";
     mw_intraday_trade_candle := sample_candle last None;
     last_trade_time := t;
     mw_orderbook := {| rows := r |} |}.

(** * Properties *)

(** ** Record equalities *)

Lemma Time_eqb_refl (t : Time) : Time_eqb t t = true.
Proof.
  unfold Time_eqb. rewrite !Z.eqb_refl. reflexivity.
Qed.

Lemma Time_eqb_eq (a b : Time) : Time_eqb a b = true <-> a = b.
Proof.
  split.
  - unfold Time_eqb. rewrite !andb_true_iff, !Z.eqb_eq.
    destruct a, b; simpl. intros [[[-> ->] ->] ->]. reflexivity.
  - intros ->. apply Time_eqb_refl.
Qed.

Lemma OrderBookRow_eqb_eq (a b : OrderBookRow) :
  OrderBookRow_eqb a b = true <-> a = b.
Proof.
  split.
  - unfold OrderBookRow_eqb, OrderBookRowSide_eqb.
    rewrite !andb_true_iff, !Z.eqb_eq.
    destruct a as [[] []], b as [[] []]; simpl.
    intros [[[-> ->] ->] [[-> ->] ->]]. reflexivity.
  - intros ->. unfold OrderBookRow_eqb, OrderBookRowSide_eqb.
    rewrite !Z.eqb_refl. reflexivity.
Qed.

Lemma update_instrument_orderbook_row_copies (instrument_obr mwi_obr : OrderBookRow) :
  update_instrument_orderbook_row instrument_obr mwi_obr = mwi_obr.
Proof. destruct mwi_obr as [[] []]. reflexivity. Qed.

Lemma update_instrument_client_type_copies (instrument_ct mwi_ct : ClientType) :
  update_instrument_client_type instrument_ct mwi_ct = mwi_ct.
Proof. destruct mwi_ct as [[[] []] [[] []]]. reflexivity. Qed.

Lemma set_client_type_same (x : Instrument) : set_client_type x (client_type x) = x.
Proof. destruct x. reflexivity. Qed.

Lemma set_rows_same (x : Instrument) : set_rows x (rows (orderbook x)) = x.
Proof. destruct x as [? ? [] ? ?]. reflexivity. Qed.

(** ** The scans *)

Lemma find_by_tsetmc_code_Some (c : string) (l : list Instrument) (n : nat)
    (x : Instrument) :
  find_by_tsetmc_code c l = Some (n, x) ->
  l !! n = Some x /\ tsetmc_code (identification x) = c.
Proof.
  revert n. induction l as [|y l IH]; intros n; simpl; [discriminate|].
  destruct (String.eqb (tsetmc_code (identification y)) c) eqn:E.
  - intros [= <- <-]. split; [reflexivity|]. now apply String.eqb_eq.
  - destruct (find_by_tsetmc_code c l) as [[m z]|]; [|discriminate].
    intros [= <- <-]. simpl. apply IH. reflexivity.
Qed.

Lemma find_by_isin_Some (i : string) (l : list Instrument) (n : nat) (x : Instrument) :
  find_by_isin i l = Some (n, x) ->
  l !! n = Some x /\ isin (identification x) = i.
Proof.
  revert n. induction l as [|y l IH]; intros n; simpl; [discriminate|].
  destruct (String.eqb (isin (identification y)) i) eqn:E.
  - intros [= <- <-]. split; [reflexivity|]. now apply String.eqb_eq.
  - destruct (find_by_isin i l) as [[m z]|]; [|discriminate].
    intros [= <- <-]. simpl. apply IH. reflexivity.
Qed.

Lemma find_by_isin_insert (i : string) (l : list Instrument) (n : nat)
    (x y : Instrument) :
  find_by_isin i l = Some (n, x) ->
  identification y = identification x ->
  find_by_isin i (<[n := y]> l) = Some (n, y).
Proof.
  intros Hf Hid. revert n Hf. induction l as [|z l IH]; intros n; simpl; [discriminate|].
  destruct (String.eqb (isin (identification z)) i) eqn:E.
  - intros [= <- <-]. simpl. rewrite Hid, E. reflexivity.
  - destruct (find_by_isin i l) as [[m w]|] eqn:F; [|discriminate].
    intros [= <- <-]. simpl. rewrite E, (IH m eq_refl). reflexivity.
Qed.

Lemma find_by_isin_app_new (i : string) (l : list Instrument) (y : Instrument) :
  find_by_isin i l = None ->
  isin (identification y) = i ->
  find_by_isin i (l ++ [y]) = Some (length l, y).
Proof.
  intros Hf Hi. induction l as [|z l IH]; simpl in *.
  - rewrite Hi, String.eqb_refl. reflexivity.
  - destruct (String.eqb (isin (identification z)) i); [discriminate|].
    destruct (find_by_isin i l) as [[m w]|]; [discriminate|].
    rewrite IH; reflexivity.
Qed.

Lemma find_by_isin_lt (i : string) (l : list Instrument) (n : nat) (x : Instrument) :
  find_by_isin i l = Some (n, x) -> n < length l.
Proof.
  intros H. apply find_by_isin_Some in H as [H _].
  now apply lookup_lt_Some in H.
Qed.

(** ** [apply_new_client_type] *)

Lemma client_type_fields_inj (a b : ClientType) :
  client_type_fields a = client_type_fields b -> a = b.
Proof.
  destruct a as [[[] []] [[] []]], b as [[[] []] [[] []]].
  unfold client_type_fields; simpl. intros [= -> -> -> -> -> -> -> ->]. reflexivity.
Qed.

Lemma ClientType_eqb_eq (a b : ClientType) : ClientType_eqb a b = true <-> a = b.
Proof.
  split.
  - unfold ClientType_eqb, ClientTypeSide_eqb, ClientTypeTrade_eqb.
    rewrite !andb_true_iff, !Z.eqb_eq.
    destruct a as [[[] []] [[] []]], b as [[[] []] [[] []]]; simpl.
    intros [[[-> ->] [-> ->]] [[-> ->] [-> ->]]]. reflexivity.
  - intros ->. unfold ClientType_eqb, ClientTypeSide_eqb, ClientTypeTrade_eqb.
    rewrite !Z.eqb_refl. reflexivity.
Qed.

(** The comparison is true exactly when one of the eight fields differs. *)
Lemma client_type_ne_fields (stored : ClientType) (mwi : MarketWatchClientTypeData) :
  client_type_ne stored mwi = true
  <-> client_type_fields stored <> client_type_fields (mwct_as_client_type mwi).
Proof.
  unfold client_type_ne. rewrite negb_true_iff. split.
  - intros Hne Heq. apply client_type_fields_inj in Heq.
    apply ClientType_eqb_eq in Heq. congruence.
  - intros Hne. destruct (ClientType_eqb stored (mwct_as_client_type mwi)) eqn:E;
      [|reflexivity].
    apply ClientType_eqb_eq in E. subst. contradiction.
Qed.

(** One record for a stored instrument: with eight equal fields the call
    returns and nothing changes; with a differing field it raises
    [AttributeError] at [mwi.client_type] and nothing changes either. *)
Lemma apply_new_client_type_one_record (instruments : list Instrument)
    (mwi : MarketWatchClientTypeData) (n : nat) (instrument : Instrument) :
  find_by_tsetmc_code (mwct_tsetmc_code mwi) instruments = Some (n, instrument) ->
  fst (apply_new_client_type instruments [mwi])
  = if client_type_ne (client_type instrument) mwi
    then Raised AttributeError instruments
    else Done instruments.
Proof.
  intros Hf. simpl. unfold apply_client_type_record. rewrite Hf.
  destruct (client_type_ne (client_type instrument) mwi); reflexivity.
Qed.

(** C8, on a stored instrument with legal buy volume 600: a record for its
    tsetmc code with the same eight fields is a no-op, as the claim says;
    a record with legal buy volume 650 is found to differ, and then the
    read of [mwi.client_type] raises [AttributeError] before
    [update_instrument_client_type] is entered, so none of the eight stored
    fields is overwritten. *)
Theorem differing_client_type_raises_and_overwrites_nothing :
  let stored := sample_instrument "IRO1FOLD0001" in
  apply_new_client_type [stored] [sample_client_type_data 600]
  = (Done [stored], [])
  /\ client_type_fields (client_type stored)
     <> client_type_fields (mwct_as_client_type (sample_client_type_data 650))
  /\ apply_new_client_type [stored] [sample_client_type_data 650]
     = (Raised AttributeError [stored], []).
Proof.
  cbv zeta. split; [reflexivity|]. split; [|reflexivity].
  simpl. intros [=].
Qed.

(** ** The order-book loop *)

(** Writing a differing row and skipping an equal one both leave the
    incoming row at the rank. *)
Lemma orderbook_row_step (rn : nat) (row instrument_obr : OrderBookRow)
    (stored : list OrderBookRow) :
  stored !! rn = Some instrument_obr ->
  (if negb (OrderBookRow_eqb row instrument_obr)
   then <[rn := update_instrument_orderbook_row instrument_obr row]> stored
   else stored)
  = <[rn := row]> stored.
Proof.
  intros Hl. rewrite update_instrument_orderbook_row_copies.
  destruct (OrderBookRow_eqb row instrument_obr) eqn:E; simpl; [|reflexivity].
  apply OrderBookRow_eqb_eq in E. subst. symmetry. now apply list_insert_id.
Qed.

(** When the snapshot fits in the stored book, the loop ends with the
    snapshot's rows at their ranks and the stored rows elsewhere. *)
Lemma orderbook_loop_fits (incoming : list OrderBookRow) :
  forall (rn : nat) (stored : list OrderBookRow),
    rn + length incoming <= length stored ->
    orderbook_loop rn incoming stored
    = Done (take rn stored ++ incoming ++ drop (rn + length incoming) stored).
Proof.
  induction incoming as [|row rest IH]; intros rn stored Hlen; simpl in *.
  - rewrite Nat.add_0_r, take_drop. reflexivity.
  - destruct (stored !! rn) as [instrument_obr|] eqn:Hl.
    + rewrite (orderbook_row_step _ _ _ _ Hl).
      rewrite IH by (rewrite length_insert; lia).
      f_equal.
      assert (Hrn : rn < length stored) by (now apply lookup_lt_Some in Hl).
      rewrite (take_S_r _ rn row) by (now apply list_lookup_insert_eq).
      rewrite take_insert_ge by lia.
      rewrite drop_insert_lt by lia.
      rewrite <- app_assoc. simpl.
      replace (S (rn + length rest)) with (rn + S (length rest)) by lia.
      reflexivity.
    + apply lookup_ge_None in Hl. lia.
Qed.


Lemma state_of_bind_done {S T : Type} (o : Outcome S) (wrap : S -> T) :
  state_of (bind_outcome o wrap (fun s => Done (wrap s))) = wrap (state_of o).
Proof. destruct o; reflexivity. Qed.

(** ** [apply_new_trade_data] and the candle *)

Lemma same_last_trade_time_true (c : TradeCandle) (dt : DateTime) (t : Time) :
  last_trade_datetime c = Some dt -> t = dt_time dt ->
  same_last_trade_time c t = true.
Proof.
  intros Hc ->. unfold same_last_trade_time. rewrite Hc. apply Time_eqb_refl.
Qed.

(** One record leaves alone the candle (and the identification) of every
    stored instrument whose recorded time of day it repeats, and of every
    instrument it does not address. *)
Lemma apply_trade_record_keeps_candle (dflt : InstrumentDefaults) (today : Date)
    (instruments : list Instrument) (mwi : MarketWatchTradeData)
    (i : nat) (instrument : Instrument) (dt : DateTime) :
  instruments !! i = Some instrument ->
  last_trade_datetime (intraday_trade_candle instrument) = Some dt ->
  (isin (mw_identification mwi) = isin (identification instrument) ->
   last_trade_time mwi = dt_time dt) ->
  exists instrument',
    state_of (apply_trade_record dflt today instruments mwi) !! i = Some instrument'
    /\ identification instrument' = identification instrument
    /\ intraday_trade_candle instrument' = intraday_trade_candle instrument.
Proof.
  intros Hi Hdt Htime. unfold apply_trade_record.
  destruct (find_by_isin (isin (mw_identification mwi)) instruments)
    as [[n found]|] eqn:Hf.
  - rewrite state_of_bind_done.
    destruct (find_by_isin_Some _ _ _ _ Hf) as [Hn Hisin].
    destruct (decide (n = i)) as [->|Hne].
    + assert (found = instrument) as -> by congruence.
      rewrite (same_last_trade_time_true _ dt) by auto. simpl.
      rewrite list_lookup_insert_eq by (now apply lookup_lt_Some in Hi).
      eexists. split; [reflexivity|]. split; reflexivity.
    + rewrite list_lookup_insert_ne by exact Hne.
      exists instrument. auto.
  - rewrite state_of_bind_done.
    assert (Hlt : i < length instruments) by (now apply lookup_lt_Some in Hi).
    rewrite list_lookup_insert_ne by lia.
    rewrite lookup_app_l by exact Hlt.
    exists instrument. auto.
Qed.

Lemma trade_data_loop_keeps_candle (dflt : InstrumentDefaults) (today : Date)
    (trade_data : list MarketWatchTradeData) :
  forall (instruments : list Instrument) (i : nat) (instrument : Instrument)
         (dt : DateTime),
    instruments !! i = Some instrument ->
    last_trade_datetime (intraday_trade_candle instrument) = Some dt ->
    (forall mwi, In mwi trade_data ->
       isin (mw_identification mwi) = isin (identification instrument) ->
       last_trade_time mwi = dt_time dt) ->
    exists instrument',
      state_of (trade_data_loop dflt today trade_data instruments) !! i
      = Some instrument'
      /\ identification instrument' = identification instrument
      /\ intraday_trade_candle instrument' = intraday_trade_candle instrument.
Proof.
  induction trade_data as [|mwi rest IH]; intros instruments i instrument dt Hi Hdt Hall.
  - simpl. exists instrument. auto.
  - simpl.
    destruct (apply_trade_record_keeps_candle dflt today instruments mwi i
                instrument dt Hi Hdt) as (x & Hx & Hid & Hc).
    { intros Heq. apply Hall; [now left | exact Heq]. }
    destruct (apply_trade_record dflt today instruments mwi) as [s|e s]; simpl in Hx.
    + destruct (IH s i x dt Hx) as (y & Hy & Hid' & Hc').
      * rewrite Hc. exact Hdt.
      * intros m Hm Heq. apply Hall; [now right | congruence].
      * exists y. split; [exact Hy|]. split; congruence.
    + simpl. exists x. auto.
Qed.

(** After one record has been applied, the scan finds an instrument that
    records the record's time of day. *)
Lemma apply_trade_record_records_time (dflt : InstrumentDefaults) (today : Date)
    (instruments : list Instrument) (mwi : MarketWatchTradeData) :
  exists n instrument,
    find_by_isin (isin (mw_identification mwi))
      (state_of (apply_trade_record dflt today instruments mwi))
    = Some (n, instrument)
    /\ same_last_trade_time (intraday_trade_candle instrument)
         (last_trade_time mwi) = true.
Proof.
  unfold apply_trade_record.
  destruct (find_by_isin (isin (mw_identification mwi)) instruments)
    as [[n found]|] eqn:Hf; rewrite state_of_bind_done.
  - eexists n, _. split.
    + apply (find_by_isin_insert _ _ _ found); [exact Hf|].
      destruct (negb _); reflexivity.
    + destruct (same_last_trade_time (intraday_trade_candle found)
                  (last_trade_time mwi)) eqn:E; simpl; [exact E|].
      unfold same_last_trade_time; simpl. apply Time_eqb_refl.
  - eexists (length instruments), _. split.
    + rewrite insert_app_r_alt by lia. rewrite Nat.sub_diag. simpl.
      apply find_by_isin_app_new; [exact Hf|].
      destruct (negb _); reflexivity.
    + simpl.
      destruct (same_last_trade_time (default_candle dflt)
                  (last_trade_time mwi)) eqn:E; simpl; [exact E|].
      unfold same_last_trade_time; simpl. apply Time_eqb_refl.
Qed.

(** A record whose time of day the found instrument already records
    changes no candle of the collection. *)
Lemma apply_trade_record_repeated (dflt : InstrumentDefaults) (today : Date)
    (instruments : list Instrument) (mwi : MarketWatchTradeData)
    (n : nat) (instrument : Instrument) :
  find_by_isin (isin (mw_identification mwi)) instruments = Some (n, instrument) ->
  same_last_trade_time (intraday_trade_candle instrument) (last_trade_time mwi) = true ->
  map intraday_trade_candle (state_of (apply_trade_record dflt today instruments mwi))
  = map intraday_trade_candle instruments.
Proof.
  intros Hf Hs. unfold apply_trade_record. rewrite Hf, Hs. simpl.
  rewrite state_of_bind_done.
  rewrite list_fmap_insert. simpl.
  apply list_insert_id. rewrite list_lookup_fmap.
  apply find_by_isin_Some in Hf as [-> _]. reflexivity.
Qed.

(** A record with a new time of day overwrites the candle of the
    instrument the scan finds. *)
Lemma apply_trade_record_new_time (dflt : InstrumentDefaults) (today : Date)
    (instruments : list Instrument) (mwi : MarketWatchTradeData)
    (n : nat) (instrument : Instrument) :
  find_by_isin (isin (mw_identification mwi)) instruments = Some (n, instrument) ->
  same_last_trade_time (intraday_trade_candle instrument) (last_trade_time mwi) = false ->
  intraday_trade_candle
    <$> (state_of (apply_trade_record dflt today instruments mwi) !! n)
  = Some (intraday_trade_candle (update_instrument_trade_data today instrument mwi)).
Proof.
  intros Hf Hs. unfold apply_trade_record. rewrite Hf, Hs. simpl.
  rewrite state_of_bind_done.
  rewrite list_lookup_insert_eq by (eapply find_by_isin_lt; eauto).
  reflexivity.
Qed.

(** C3: an instrument whose stored candle records the time of day that the
    incoming records for it carry keeps its candle through
    [apply_new_trade_data]; so a record applied a second time changes no
    candle, whatever the first application did, while a record with a
    time of day the found instrument does not record overwrites its candle. *)
Theorem apply_new_trade_data_drops_repeated_time (dflt : InstrumentDefaults)
    (instruments : list Instrument) :
  (forall (today : Date) (trade_data : list MarketWatchTradeData) (i : nat)
          (instrument : Instrument) (dt : DateTime),
      instruments !! i = Some instrument ->
      last_trade_datetime (intraday_trade_candle instrument) = Some dt ->
      (forall mwi, In mwi trade_data ->
         isin (mw_identification mwi) = isin (identification instrument) ->
         last_trade_time mwi = dt_time dt) ->
      intraday_trade_candle
        <$> (state_of (fst (apply_new_trade_data dflt today instruments trade_data)) !! i)
      = Some (intraday_trade_candle instrument))
  /\ (forall (today1 today2 : Date) (mwi : MarketWatchTradeData),
        let once :=
          state_of (fst (apply_new_trade_data dflt today1 instruments [mwi])) in
        map intraday_trade_candle
          (state_of (fst (apply_new_trade_data dflt today2 once [mwi])))
        = map intraday_trade_candle once)
  /\ (forall (today : Date) (mwi : MarketWatchTradeData) (n : nat)
            (instrument : Instrument),
        find_by_isin (isin (mw_identification mwi)) instruments
        = Some (n, instrument) ->
        same_last_trade_time (intraday_trade_candle instrument)
          (last_trade_time mwi) = false ->
        intraday_trade_candle
          <$> (state_of (fst (apply_new_trade_data dflt today instruments [mwi])) !! n)
        = Some (intraday_trade_candle
                  (update_instrument_trade_data today instrument mwi))).
Proof.
  split; [|split].
  - intros today trade_data i instrument dt Hi Hdt Hall. simpl.
    destruct (trade_data_loop_keeps_candle dflt today trade_data instruments i
                instrument dt Hi Hdt Hall) as (x & -> & _ & Hc).
    simpl. now rewrite Hc.
  - intros today1 today2 mwi once.
    assert (Honce : once = state_of (apply_trade_record dflt today1 instruments mwi)).
    { unfold once. simpl.
      destruct (apply_trade_record dflt today1 instruments mwi); reflexivity. }
    destruct (apply_trade_record_records_time dflt today1 instruments mwi)
      as (n & x & Hf & Hs).
    rewrite <- Honce in Hf.
    pose proof (apply_trade_record_repeated dflt today2 once mwi n x Hf Hs) as Hrep.
    simpl. destruct (apply_trade_record dflt today2 once mwi); exact Hrep.
  - intros today mwi n instrument Hf Hs.
    pose proof (apply_trade_record_new_time dflt today instruments mwi n
                  instrument Hf Hs) as Hnew.
    simpl. destruct (apply_trade_record dflt today instruments mwi); exact Hnew.
Qed.

Lemma apply_new_trade_data_drops_repeated_time_witness :
  intraday_trade_candle
    <$> (state_of (fst (apply_new_trade_data sample_defaults sample_date
                          [sample_instrument "IRO1FOLD0001"]
                          [sample_trade_data "IRO1FOLD0001" 5035 (sample_time 9 30)
                             [sample_row 5020 5030]])) !! 0)
  = Some (intraday_trade_candle (sample_instrument "IRO1FOLD0001")).
Proof.
  apply (proj1 (apply_new_trade_data_drops_repeated_time sample_defaults
                  [sample_instrument "IRO1FOLD0001"])
           sample_date _ 0 (sample_instrument "IRO1FOLD0001")
           (combine sample_date (sample_time 9 30))).
  - reflexivity.
  - reflexivity.
  - intros mwi [<-|[]] _. reflexivity.
Defined.

(** ** The sink is never reached *)

(** What [pusher_orderbook_data] broadcasts when it is called with the
    changed rank 2: the row of rank 2 alone, to the order-book subscribers
    of the instrument's channel. *)
Lemma pusher_orderbook_data_rank2 :
  let changed :=
    set_rows (sample_instrument "IRO1FOLD0001")
      [sample_row 5020 5030; sample_row 5010 5040; sample_row 5005 5045] in
  pusher_orderbook_data
    [subscribe_orderbook 7 (InstrumentChannel_init "IRO1FOLD0001")]
    [(changed, [2])]
  = ([{| bc_clients := {[7]};
         bc_payload :=
           [("IRO1FOLD0001",
             PyDict [("orderbook",
                      PyList [PyList [PyInt 2; PyInt 3; PyInt 5005; PyInt 1500;
                                      PyInt 2; PyInt 5045; PyInt 900]])])] |}],
     None).
Proof. reflexivity. Qed.

(** With a snapshot that fits the stored book, the found instrument ends
    with the snapshot's rows over its own. *)
Lemma apply_trade_record_rows (dflt : InstrumentDefaults) (today : Date)
    (instruments : list Instrument) (mwi : MarketWatchTradeData)
    (n : nat) (instrument : Instrument) :
  find_by_isin (isin (mw_identification mwi)) instruments = Some (n, instrument) ->
  length (rows (mw_orderbook mwi)) <= length (rows (orderbook instrument)) ->
  exists instrument',
    apply_trade_record dflt today instruments mwi
    = Done (<[n := instrument']> instruments)
    /\ rows (orderbook instrument')
       = rows (mw_orderbook mwi)
         ++ drop (length (rows (mw_orderbook mwi))) (rows (orderbook instrument)).
Proof.
  intros Hf Hlen. unfold apply_trade_record. rewrite Hf.
  set (instrument1 := if negb _ then _ else instrument).
  assert (Hrows : rows (orderbook instrument1) = rows (orderbook instrument)).
  { unfold instrument1. destruct (negb _); reflexivity. }
  rewrite orderbook_loop_fits by (rewrite Hrows; simpl; lia).
  simpl. eexists. split; [reflexivity|]. simpl. rewrite Hrows. reflexivity.
Qed.

(** C4, at a stored book of three rows and a snapshot that differs at rank
    2 only: rank 2 alone is overwritten, and the call ends without any
    pusher call, so no order-book notification (with ranks {2} or any
    other) is made. *)
Theorem orderbook_change_at_rank2_reaches_no_sink (dflt : InstrumentDefaults)
    (today : Date) :
  apply_new_trade_data dflt today [sample_instrument "IRO1FOLD0001"]
    [sample_trade_data "IRO1FOLD0001" 5020 (sample_time 9 30)
       [sample_row 5020 5030; sample_row 5010 5040; sample_row 5005 5045]]
  = (Done [set_rows (sample_instrument "IRO1FOLD0001")
             [sample_row 5020 5030; sample_row 5010 5040; sample_row 5005 5045]],
     []).
Proof. reflexivity. Qed.

(** C1, on a stored instrument and the trade path: a record with a new
    time of day and a changed row overwrites the candle and the row, and
    the call makes no pusher call; no call of [apply_new_trade_data] ever
    makes one. *)
Theorem repository_mutations_reach_no_sink (dflt : InstrumentDefaults)
    (today : Date) :
  let stored := sample_instrument "IRO1FOLD0001" in
  let trade :=
    sample_trade_data "IRO1FOLD0001" 5035 (sample_time 9 31)
      [sample_row 5025 5030] in
  (apply_new_trade_data dflt today [stored] [trade]
   = (Done [set_rows (update_instrument_trade_data today stored trade)
              [sample_row 5025 5030; sample_row 5010 5040; sample_row 5000 5050]],
      [])
   /\ state_of (fst (apply_new_trade_data dflt today [stored] [trade])) <> [stored])
  /\ (forall instruments trade_data,
        snd (apply_new_trade_data dflt today instruments trade_data) = []).
Proof.
  cbv zeta. repeat split.
  simpl. intros [=].
Qed.

(** ** The unsubscribe functions *)

Lemma set_remove_absent (s : gset ClientConnection) (c : ClientConnection) :
  c ∉ s -> set_remove s c = inl KeyError.
Proof. intros H. unfold set_remove. now rewrite decide_False. Qed.

Lemma set_remove_difference (s : gset ClientConnection) (c : ClientConnection) :
  match set_remove s c with inr s' => s' | inl _ => s end = s ∖ {[c]}.
Proof.
  unfold set_remove. destruct (decide (c ∈ s)); [reflexivity|]. set_solver.
Qed.

Lemma unsubscribe_trade_difference (c : ClientConnection) (ch : InstrumentChannel) :
  unsubscribe_trade c ch
  = set_trade_subscribers ch (trade_subscribers ch ∖ {[c]}).
Proof.
  unfold unsubscribe_trade. rewrite <- set_remove_difference.
  destruct (set_remove (trade_subscribers ch) c); [|reflexivity].
  destruct ch; reflexivity.
Qed.

Lemma unsubscribe_orderbook_difference (c : ClientConnection) (ch : InstrumentChannel) :
  unsubscribe_orderbook c ch
  = set_orderbook_subscribers ch (orderbook_subscribers ch ∖ {[c]}).
Proof.
  unfold unsubscribe_orderbook. rewrite <- set_remove_difference.
  destruct (set_remove (orderbook_subscribers ch) c); [|reflexivity].
  destruct ch; reflexivity.
Qed.

Lemma unsubscribe_clienttype_difference (c : ClientConnection) (ch : InstrumentChannel) :
  unsubscribe_clienttype c ch
  = set_clienttype_subscribers ch (clienttype_subscribers ch ∖ {[c]}).
Proof.
  unfold unsubscribe_clienttype. rewrite <- set_remove_difference.
  destruct (set_remove (clienttype_subscribers ch) c); [|reflexivity].
  destruct ch; reflexivity.
Qed.

Lemma difference_absent (s : gset ClientConnection) (c : ClientConnection) :
  c ∉ s -> s ∖ {[c]} = s.
Proof. set_solver. Qed.

Lemma difference_twice (s : gset ClientConnection) (c : ClientConnection) :
  (s ∖ {[c]}) ∖ {[c]} = s ∖ {[c]}.
Proof. set_solver. Qed.

Ltac unsubscribe_norm :=
  unfold unsubscribe_all;
  rewrite ?unsubscribe_clienttype_difference, ?unsubscribe_orderbook_difference,
    ?unsubscribe_trade_difference;
  unfold set_trade_subscribers, set_orderbook_subscribers,
    set_clienttype_subscribers; simpl.

(** C10: each unsubscribe function returns on every connection and
    channel (the [KeyError] of [set.remove] never leaves it); on a
    connection that is in none of the sets it targets it gives the channel
    back as it was; and applied twice it gives what it gives applied once. *)
Theorem unsubscribe_total_and_idempotent (c : ClientConnection)
    (ch : InstrumentChannel) :
  ((c ∉ trade_subscribers ch ->
    set_remove (trade_subscribers ch) c = inl KeyError
    /\ unsubscribe_trade c ch = ch)
   /\ (c ∉ orderbook_subscribers ch ->
       set_remove (orderbook_subscribers ch) c = inl KeyError
       /\ unsubscribe_orderbook c ch = ch)
   /\ (c ∉ clienttype_subscribers ch ->
       set_remove (clienttype_subscribers ch) c = inl KeyError
       /\ unsubscribe_clienttype c ch = ch)
   /\ (c ∉ trade_subscribers ch -> c ∉ orderbook_subscribers ch ->
       c ∉ clienttype_subscribers ch -> unsubscribe_all c ch = ch))
  /\ (unsubscribe_trade c (unsubscribe_trade c ch) = unsubscribe_trade c ch
      /\ unsubscribe_orderbook c (unsubscribe_orderbook c ch)
         = unsubscribe_orderbook c ch
      /\ unsubscribe_clienttype c (unsubscribe_clienttype c ch)
         = unsubscribe_clienttype c ch
      /\ unsubscribe_all c (unsubscribe_all c ch) = unsubscribe_all c ch).
Proof.
  split; [repeat split|repeat split].
  - now apply set_remove_absent.
  - unsubscribe_norm. rewrite difference_absent by assumption. now destruct ch.
  - now apply set_remove_absent.
  - unsubscribe_norm. rewrite difference_absent by assumption. now destruct ch.
  - now apply set_remove_absent.
  - unsubscribe_norm. rewrite difference_absent by assumption. now destruct ch.
  - intros H1 H2 H3. unsubscribe_norm. rewrite !difference_absent by assumption.
    now destruct ch.
  - unsubscribe_norm. now rewrite difference_twice.
  - unsubscribe_norm. now rewrite difference_twice.
  - unsubscribe_norm. now rewrite difference_twice.
  - unsubscribe_norm. now rewrite !difference_twice.
Qed.

Lemma unsubscribe_total_and_idempotent_witness :
  unsubscribe_all 7 (subscribe_trade 3 (InstrumentChannel_init "IRO1FOLD0001"))
  = subscribe_trade 3 (InstrumentChannel_init "IRO1FOLD0001").
Proof.
  apply (proj1 (unsubscribe_total_and_idempotent 7
                  (subscribe_trade 3 (InstrumentChannel_init "IRO1FOLD0001")))).
  - simpl. unfold set_add. set_solver.
  - simpl. set_solver.
  - simpl. set_solver.
Defined.

(** ** Commands *)

Lemma subscribe_trade_twice (c : ClientConnection) (ch : InstrumentChannel) :
  subscribe_trade c (subscribe_trade c ch) = subscribe_trade c ch.
Proof.
  unfold subscribe_trade, set_trade_subscribers, set_add; simpl.
  f_equal. set_solver.
Qed.

(** C2, at a broker that holds the channel of IRO1FOLD0001 alone: whatever
    the repository knows, a subscribe command for IRO1IKCO0001 puts the
    connection into the trade set of the channel of IRO1FOLD0001, creates
    no channel for IRO1IKCO0001, and from then on a trade change of
    IRO1FOLD0001 is broadcast to the connection while one of IRO1IKCO0001
    is broadcast to nobody. *)
Theorem subscribe_lands_on_first_channel
    (lookup : list Instrument -> list string -> list (option Instrument))
    (repo : list Instrument) :
  let channels :=
    fst (handle_connection_message lookup repo 7 "1.trade.IRO1IKCO0001"
           [InstrumentChannel_init "IRO1FOLD0001"]) in
  channels = [subscribe_trade 7 (InstrumentChannel_init "IRO1FOLD0001")]
  /\ find_channel_by_isin "IRO1IKCO0001" channels = None
  /\ map bc_clients
       (fst (pusher_trade_data channels [sample_instrument "IRO1FOLD0001"]))
     = [{[7]}]
  /\ pusher_trade_data channels [sample_instrument "IRO1IKCO0001"] = ([], None).
Proof.
  intros channels.
  assert (Hch : channels = [subscribe_trade 7 (InstrumentChannel_init "IRO1FOLD0001")]).
  { unfold channels. cbn. repeat case_match; reflexivity. }
  rewrite Hch. repeat split. 
Qed.

(** A command that fails one of the four checks changes no channel, gets
    no response and leaves the connection open. *)
Lemma failed_check_is_inert
    (lookup : list Instrument -> list string -> list (option Instrument))
    (repo : list Instrument) (client : ClientConnection) (message : string)
    (channels : list InstrumentChannel) :
  length (split_on "." message) <> 3
  \/ (exists action channel ids,
        split_on "." message = [action; channel; ids]
        /\ (str_in action acceptable_actions = false
            \/ str_in channel acceptable_channels = false
            \/ truthy_str (fake_isin (split_on "," ids)) = true)) ->
  handle_connection_message lookup repo client message channels
  = (channels, Returns None)
  /\ handle_connection_turn lookup repo client message channels
     = {| hd_channels := channels; hd_sent := []; hd_open := true |}.
Proof.
  intros H.
  assert (Hm : handle_connection_message lookup repo client message channels
               = (channels, Returns None)).
  { unfold handle_connection_message. destruct H as [Hlen|(a & c & ids & Hs & H)].
    - apply Nat.eqb_neq in Hlen. rewrite Hlen. reflexivity.
    - rewrite Hs. cbn [length Nat.eqb negb].
      destruct H as [Ha|[Hc|Hf]].
      + rewrite Ha. reflexivity.
      + rewrite Hc. destruct (str_in a acceptable_actions); reflexivity.
      + rewrite Hf.
        destruct (str_in a acceptable_actions), (str_in c acceptable_channels);
          reflexivity. }
  split; [exact Hm|]. unfold handle_connection_turn. rewrite Hm. reflexivity.
Qed.

(** The length check fires when a token of another length than 12 comes
    before any empty token. *)
Lemma fake_isin_truthy (isins : list string) :
  (exists x, In x isins /\ String.length x <> 12) ->
  (forall x, In x isins -> x <> "") ->
  truthy_str (fake_isin isins) = true.
Proof.
  unfold fake_isin. induction isins as [|y l IH]; intros (x & Hin & Hlen) Hne.
  - destruct Hin.
  - simpl. destruct (Nat.eqb (String.length y) 12) eqn:E; simpl.
    + apply IH.
      * destruct Hin as [->|Hin]; [|eauto].
        apply Nat.eqb_eq in E. contradiction.
      * intros z Hz. apply Hne. now right.
    + destruct y; [|reflexivity]. exfalso. apply (Hne ""); [now left|reflexivity].
Qed.

(** The malformed example of the spec. *)
Lemma bogus_channel_is_inert
    (lookup : list Instrument -> list string -> list (option Instrument))
    (repo : list Instrument) (client : ClientConnection)
    (channels : list InstrumentChannel) :
  handle_connection_turn lookup repo client "1.bogus.IRO1FOLD0001" channels
  = {| hd_channels := channels; hd_sent := []; hd_open := true |}.
Proof.
  apply failed_check_is_inert. right.
  exists "1", "bogus", "IRO1FOLD0001". split; [reflexivity|]. right. now left.
Qed.

(** C6, at a command whose identity list ends in a comma, so that its
    second token is empty (length 0, not 12): the command passes the length
    check; on a broker without channels, whatever the repository knows, the
    connection ends in the trade set of a new channel; and with the
    instrument stored a response is sent as well. *)
Theorem empty_identity_token_is_accepted
    (lookup : list Instrument -> list string -> list (option Instrument))
    (repo : list Instrument) :
  split_on "," "IRO1FOLD0001," = ["IRO1FOLD0001"; ""]
  /\ truthy_str (fake_isin (split_on "," "IRO1FOLD0001,")) = false
  /\ fst (handle_connection_message lookup repo 7 "1.trade.IRO1FOLD0001," [])
     = [subscribe_trade 7 (InstrumentChannel_init "IRO1FOLD0001")]
  /\ handle_connection_turn get_instruments [sample_instrument "IRO1FOLD0001"] 7
       "1.trade.IRO1FOLD0001," []
     = {| hd_channels :=
            [subscribe_trade 7 (InstrumentChannel_init "IRO1FOLD0001")];
          hd_sent :=
            [[("IRO1FOLD0001",
               PyDict [("trade",
                        PyList [PyInt 5010; PyInt 5020;
                                PyStr "2024/01/06 09:30:00"; PyInt 5060;
                                PyInt 4980; PyInt 4990; PyInt 5000; PyInt 37;
                                PyInt 601200000; PyInt 120000])])]];
          hd_open := true |}.
Proof.
  split; [reflexivity|]. split; [reflexivity|]. split; [|reflexivity].
  cbn. repeat case_match; rewrite ?subscribe_trade_twice; reflexivity.
Qed.

(** C5, at an unsubscribe command for an instrument the repository holds:
    the handler returns the dict that maps the isin to [None], which is
    not empty, and [handle_connection] sends it. *)
Theorem unsubscribe_of_known_instrument_is_answered :
  handle_connection_message get_instruments [sample_instrument "IRO1FOLD0001"] 7
    "0.trade.IRO1FOLD0001"
    [subscribe_trade 7 (InstrumentChannel_init "IRO1FOLD0001")]
  = ([InstrumentChannel_init "IRO1FOLD0001"],
     Returns (Some [("IRO1FOLD0001", PyNone)]))
  /\ handle_connection_turn get_instruments [sample_instrument "IRO1FOLD0001"] 7
       "0.trade.IRO1FOLD0001"
       [subscribe_trade 7 (InstrumentChannel_init "IRO1FOLD0001")]
     = {| hd_channels := [InstrumentChannel_init "IRO1FOLD0001"];
          hd_sent := [[("IRO1FOLD0001", PyNone)]];
          hd_open := true |}.
Proof. split; reflexivity. Qed.

(** ** What an unsubscribe command answers *)

Lemma dict_set_nonempty (k : string) (v : PyVal) (d : Dict) : dict_set k v d <> [].
Proof. destruct d as [|[k' v'] d]; simpl; [|destruct (String.eqb k' k)]; discriminate. Qed.

(** The loop of an unsubscribe command returns, and its dict is empty
    exactly when it started empty and every looked-up instrument is
    [None]. *)
Lemma unsubscribe_loop_response (client : ClientConnection)
    (f : ClientConnection -> InstrumentChannel -> InstrumentChannel)
    (instruments : list (option Instrument)) (isins : list string) :
  forall (counter : nat) (channels : list InstrumentChannel) (d : Dict),
    counter + length isins <= length instruments ->
    exists channels' d',
      subscription_loop client f (fun _ => inr PyNone) instruments counter isins
        channels d
      = (channels', Returns (Some d'))
      /\ (d' = [] <->
          d = [] /\ forall k, k < length isins ->
                          instruments !! (counter + k) = Some None).
Proof.
  induction isins as [|i rest IH]; intros counter channels d Hlen; simpl in *.
  - exists channels, d. split; [reflexivity|]. split; [|tauto].
    intros ->. split; [reflexivity|]. intros k Hk. lia.
  - set (step := match first_channel channels with
                 | Some (n, channel) => (n, channel, channels)
                 | None => _ end).
    destruct step as [[n channel] channels1].
    destruct (instruments !! counter) as [[x|]|] eqn:Hc.
    + destruct (IH (S counter) (<[n := f client channel]> channels1)
                  (dict_set i PyNone d)) as (c' & d' & -> & Hiff); [lia|].
      exists c', d'. split; [reflexivity|]. split.
      * intros Hd. apply Hiff in Hd as [Hd _]. now apply dict_set_nonempty in Hd.
      * intros [_ Hall]. specialize (Hall 0 ltac:(lia)).
        rewrite Nat.add_0_r, Hc in Hall. discriminate.
    + destruct (IH (S counter) (<[n := f client channel]> channels1) d)
        as (c' & d' & -> & Hiff); [lia|].
      exists c', d'. split; [reflexivity|]. rewrite Hiff. split.
      * intros [-> Hall]. split; [reflexivity|]. intros [|k] Hk.
        -- now rewrite Nat.add_0_r.
        -- replace (counter + S k) with (S counter + k) by lia. apply Hall. lia.
      * intros [-> Hall]. split; [reflexivity|]. intros k Hk.
        replace (S counter + k) with (counter + S k) by lia. apply Hall. lia.
    + apply lookup_ge_None in Hc. lia.
Qed.

Lemma unsubscribe_tables (channel : string) :
  str_in channel acceptable_channels = true ->
  (exists f, get_channel_action_func "0" channel = inr f)
  /\ get_initial_data_func "0" channel = inr (fun _ => inr PyNone).
Proof.
  intros H. unfold str_in, acceptable_channels in H. simpl in H.
  rewrite !orb_true_iff, !String.eqb_eq in H.
  destruct H as [->|[->|[->|[->|H]]]]; try discriminate H;
    (split; [eexists|]; reflexivity).
Qed.

Lemma get_instruments_lookup (repo : list Instrument) (isins : list string) (k : nat) :
  get_instruments repo isins !! k
  = (fun i => option_map snd (find_by_isin i repo)) <$> (isins !! k).
Proof. unfold get_instruments. apply list_lookup_fmap. Qed.

(** A well-formed unsubscribe command leaves the connection open, and it
    is left unanswered exactly when the repository holds none of the
    identities it lists. *)
Lemma unsubscribe_answered_iff_known (repo : list Instrument)
    (client : ClientConnection) (message channel ids : string)
    (channels : list InstrumentChannel) :
  split_on "." message = ["0"; channel; ids] ->
  str_in channel acceptable_channels = true ->
  truthy_str (fake_isin (split_on "," ids)) = false ->
  hd_open (handle_connection_turn get_instruments repo client message channels)
  = true
  /\ (hd_sent (handle_connection_turn get_instruments repo client message channels)
      = [] <->
      forall i, In i (split_on "," ids) -> find_by_isin i repo = None).
Proof.
  intros Hs Hc Hf.
  destruct (unsubscribe_tables channel Hc) as [[f Hact] Hdata].
  unfold handle_connection_turn, handle_connection_message.
  rewrite Hs. cbn [length Nat.eqb negb]. rewrite Hc, Hf, Hact, Hdata.
  change (str_in "0" acceptable_actions) with true. cbn [negb].
  destruct (unsubscribe_loop_response client f
              (get_instruments repo (split_on "," ids)) (split_on "," ids)
              0 channels [])
    as (c' & d' & -> & Hiff).
  { unfold get_instruments. rewrite length_map. simpl. lia. }
  split; [reflexivity|]. simpl.
  assert (Hd : (if truthy_response (Some d') then [d'] else []) = [] <-> d' = []).
  { destruct d'; simpl; split; intros; try reflexivity; discriminate. }
  rewrite Hd, Hiff. split.
  - intros [_ Hall] i Hin.
    apply list_elem_of_In, list_elem_of_lookup in Hin as [k Hk].
    specialize (Hall k (lookup_lt_Some _ _ _ Hk)). simpl in Hall.
    rewrite get_instruments_lookup, Hk in Hall. simpl in Hall.
    destruct (find_by_isin i repo); [discriminate|reflexivity].
  - intros Hall. split; [reflexivity|]. intros k Hk. simpl.
    rewrite get_instruments_lookup.
    destruct (lookup_lt_is_Some_2 _ _ Hk) as [i Hi]. rewrite Hi. simpl.
    rewrite (Hall i); [reflexivity|].
    apply list_elem_of_In, list_elem_of_lookup. eauto.
Qed.

(** ** [process_message] *)

(** A frame whose first identity no subscribed instrument has ends
    [process_message] at once with [StopIteration]. *)
Lemma process_message_unknown_first (int_of_str : string -> option Z)
    (fromisoformat : string -> option DateTime) (i : string) (channels : PyVal)
    (rest : Dict) (subscribed_instruments : list Instrument) :
  find_by_isin i subscribed_instruments = None ->
  process_message int_of_str fromisoformat ((i, channels) :: rest)
    subscribed_instruments
  = Raised StopIteration subscribed_instruments.
Proof. intros H. simpl. rewrite H. reflexivity. Qed.

(** A thresholds entry of a subscribed instrument stores its two limits. *)
Lemma process_message_thresholds (int_of_str : string -> option Z)
    (fromisoformat : string -> option DateTime) (i : string) (hi lo : Z)
    (subscribed_instruments : list Instrument) (n : nat) (x : Instrument) :
  find_by_isin i subscribed_instruments = Some (n, x) ->
  process_message int_of_str fromisoformat
    [(i, PyDict [("thresholds", PyList [PyInt hi; PyInt lo])])]
    subscribed_instruments
  = Done (<[n := set_limits x {| lim_max_price := hi; lim_min_price := lo |}]>
            subscribed_instruments).
Proof. intros H. simpl. rewrite H. reflexivity. Qed.

(** C7, at a client subscribed to IRO1FOLD0001 alone and a frame that
    carries thresholds for IRO1IKCO0001 and then for IRO1FOLD0001: the
    unknown identity is not skipped; [process_message] raises
    [StopIteration] there and the thresholds of IRO1FOLD0001, which the
    frame alone would store, are never stored. *)
Theorem unknown_identity_aborts_the_frame (int_of_str : string -> option Z)
    (fromisoformat : string -> option DateTime) :
  let subscribed := [sample_instrument "IRO1FOLD0001"] in
  let known := ("IRO1FOLD0001", PyDict [("thresholds", PyList [PyInt 5300; PyInt 4800])]) in
  let unknown := ("IRO1IKCO0001", PyDict [("thresholds", PyList [PyInt 2100; PyInt 1900])]) in
  process_message int_of_str fromisoformat [unknown; known] subscribed
  = Raised StopIteration subscribed
  /\ process_message int_of_str fromisoformat [known] subscribed
     = Done [set_limits (sample_instrument "IRO1FOLD0001")
               {| lim_max_price := 5300; lim_min_price := 4800 |}].
Proof. split; reflexivity. Qed.

(** * Further properties of the code *)

(** ** repository.py: the order book under [apply_new_trade_data] *)



Lemma same_identification_copy (m : InstrumentIdentification) :
  {| isin := isin m; tsetmc_code := tsetmc_code m; ticker := ticker m;
     name_persian := name_persian m |} = m.
Proof. destruct m. reflexivity. Qed.





(** ** repository.py: what [apply_new_trade_data] keeps *)

Lemma find_by_isin_None_not_in (i : string) (l : list Instrument) :
  find_by_isin i l = None -> ~ In i (isins_of l).
Proof.
  induction l as [|x l IH]; simpl; [tauto|].
  destruct (String.eqb (isin (identification x)) i) eqn:E; [discriminate|].
  destruct (find_by_isin i l) as [[m y]|]; [discriminate|].
  intros _ [H|H]; [|now apply IH].
  apply String.eqb_neq in E. contradiction.
Qed.

(** One record keeps the identifications of the stored instruments, and
    adds the record's own at the end when no stored instrument has its
    isin. *)
Lemma apply_trade_record_identifications (dflt : InstrumentDefaults)
    (today : Date) (instruments : list Instrument) (mwi : MarketWatchTradeData) :
  map identification (state_of (apply_trade_record dflt today instruments mwi))
  = map identification instruments
    ++ match find_by_isin (isin (mw_identification mwi)) instruments with
       | Some _ => []
       | None => [mw_identification mwi]
       end.
Proof.
  unfold apply_trade_record.
  destruct (find_by_isin (isin (mw_identification mwi)) instruments)
    as [[n found]|] eqn:Hf; rewrite state_of_bind_done, list_fmap_insert.
  - rewrite app_nil_r. apply list_insert_id. rewrite list_lookup_fmap.
    apply find_by_isin_Some in Hf as [-> _]. simpl.
    destruct (negb _); reflexivity.
  - rewrite fmap_app. simpl.
    rewrite insert_app_r_alt by (rewrite length_map; lia).
    rewrite length_map, Nat.sub_diag. simpl.
    rewrite same_identification_copy.
    destruct (negb _); simpl; now rewrite ?same_identification_copy.
Qed.

Lemma isins_of_identifications (a b : list Instrument) :
  map identification a = map identification b -> isins_of a = isins_of b.
Proof.
  intros H. unfold isins_of.
  rewrite <- (map_map identification isin a), <- (map_map identification isin b).
  now rewrite H.
Qed.

Lemma apply_trade_record_NoDup (dflt : InstrumentDefaults) (today : Date)
    (instruments : list Instrument) (mwi : MarketWatchTradeData) :
  List.NoDup (isins_of instruments) ->
  List.NoDup (isins_of (state_of (apply_trade_record dflt today instruments mwi))).
Proof.
  intros Hnd.
  pose proof (apply_trade_record_identifications dflt today instruments mwi) as Hid.
  unfold isins_of.
  rewrite <- (map_map identification isin), Hid, map_app, (map_map identification isin).
  destruct (find_by_isin (isin (mw_identification mwi)) instruments) eqn:Hf; simpl.
  - now rewrite app_nil_r.
  - apply NoDup_ListNoDup. apply NoDup_app. split; [now apply NoDup_ListNoDup|].
    split; [|apply NoDup_singleton].
    intros i Hi Hin. apply list_elem_of_singleton in Hin. subst i.
    apply list_elem_of_In in Hi.
    now apply (find_by_isin_None_not_in _ _ Hf).
Qed.

(** X3: no call of [apply_new_trade_data] gives two stored instruments the
    same isin: when the isins are pairwise different before the call they
    are so after it, whether it ends normally or raises. *)
Theorem apply_new_trade_data_keeps_isins_unique (dflt : InstrumentDefaults)
    (today : Date) (trade_data : list MarketWatchTradeData)
    (instruments : list Instrument) :
  List.NoDup (isins_of instruments) ->
  List.NoDup
    (isins_of (state_of (fst (apply_new_trade_data dflt today instruments trade_data)))).
Proof.
  simpl. revert instruments.
  induction trade_data as [|mwi rest IH]; intros instruments Hnd; simpl; [exact Hnd|].
  pose proof (apply_trade_record_NoDup dflt today instruments mwi Hnd) as Hstep.
  destruct (apply_trade_record dflt today instruments mwi) as [s|e s]; simpl in *.
  - now apply IH.
  - exact Hstep.
Qed.

Lemma apply_new_trade_data_keeps_isins_unique_witness :
  List.NoDup
    (isins_of
       (state_of
          (fst (apply_new_trade_data sample_defaults sample_date
                  [sample_instrument "IRO1FOLD0001"]
                  [sample_trade_data "IRO1IKCO0001" 2000 (sample_time 9 30) [];
                   sample_trade_data "IRO1FOLD0001" 5035 (sample_time 9 31) [];
                   sample_trade_data "IRO1IKCO0001" 2010 (sample_time 9 32) []])))).
Proof.
  apply (apply_new_trade_data_keeps_isins_unique sample_defaults sample_date).
  simpl. constructor; [simpl; tauto | constructor].
Defined.

(** One record leaves in place every stored instrument, with its
    identification, client type and price limits. *)
Lemma apply_trade_record_frame (dflt : InstrumentDefaults) (today : Date)
    (instruments : list Instrument) (mwi : MarketWatchTradeData)
    (i : nat) (x : Instrument) :
  instruments !! i = Some x ->
  exists x',
    state_of (apply_trade_record dflt today instruments mwi) !! i = Some x'
    /\ identification x' = identification x
    /\ client_type x' = client_type x
    /\ order_limitations x' = order_limitations x.
Proof.
  intros Hi. unfold apply_trade_record.
  destruct (find_by_isin (isin (mw_identification mwi)) instruments)
    as [[n found]|] eqn:Hf; rewrite state_of_bind_done.
  - destruct (find_by_isin_Some _ _ _ _ Hf) as [Hn _].
    destruct (decide (n = i)) as [->|Hne].
    + assert (found = x) as -> by congruence.
      rewrite list_lookup_insert_eq by (now apply lookup_lt_Some in Hi).
      eexists. split; [reflexivity|]. destruct (negb _); auto.
    + rewrite list_lookup_insert_ne by exact Hne. eauto.
  - assert (Hlt : i < length instruments) by (now apply lookup_lt_Some in Hi).
    rewrite list_lookup_insert_ne by lia.
    rewrite lookup_app_l by exact Hlt. eauto.
Qed.

(** X4: [apply_new_trade_data] removes no instrument and moves none, and
    it never touches the identification, the client type or the price
    limits of a stored instrument, whether it ends normally or raises. *)
Theorem apply_new_trade_data_frame (dflt : InstrumentDefaults) (today : Date)
    (trade_data : list MarketWatchTradeData) (instruments : list Instrument)
    (i : nat) (x : Instrument) :
  instruments !! i = Some x ->
  exists x',
    state_of (fst (apply_new_trade_data dflt today instruments trade_data)) !! i
    = Some x'
    /\ identification x' = identification x
    /\ client_type x' = client_type x
    /\ order_limitations x' = order_limitations x.
Proof.
  simpl. revert instruments x.
  induction trade_data as [|mwi rest IH]; intros instruments x Hi; simpl; [eauto|].
  destruct (apply_trade_record_frame dflt today instruments mwi i x Hi)
    as (y & Hy & Hid & Hct & Hlim).
  destruct (apply_trade_record dflt today instruments mwi) as [s|e s]; simpl in *.
  - destruct (IH s y Hy) as (z & Hz & Hid' & Hct' & Hlim').
    exists z. repeat split; congruence.
  - eauto.
Qed.

Lemma apply_new_trade_data_frame_witness :
  exists x',
    state_of
      (fst (apply_new_trade_data sample_defaults sample_date
              [sample_instrument "IRO1FOLD0001"]
              [sample_trade_data "IRO1FOLD0001" 5035 (sample_time 9 31)
                 [sample_row 5025 5030]])) !! 0
    = Some x'
    /\ identification x' = identification (sample_instrument "IRO1FOLD0001")
    /\ client_type x' = client_type (sample_instrument "IRO1FOLD0001")
    /\ order_limitations x' = order_limitations (sample_instrument "IRO1FOLD0001").
Proof.
  apply (apply_new_trade_data_frame sample_defaults sample_date
           [sample_trade_data "IRO1FOLD0001" 5035 (sample_time 9 31)
              [sample_row 5025 5030]]
           [sample_instrument "IRO1FOLD0001"] 0 (sample_instrument "IRO1FOLD0001")).
  reflexivity.
Defined.

(** X5: a record for an isin that no stored instrument has appends one
    instrument, with the record's identification and the client type and
    price limits a new instrument starts with, and leaves the stored
    instruments where they are. *)
Theorem trade_record_for_new_isin (dflt : InstrumentDefaults) (today : Date)
    (instruments : list Instrument) (mwi : MarketWatchTradeData) :
  find_by_isin (isin (mw_identification mwi)) instruments = None ->
  exists created,
    state_of (fst (apply_new_trade_data dflt today instruments [mwi]))
    = instruments ++ [created]
    /\ identification created = mw_identification mwi
    /\ client_type created = default_client_type dflt
    /\ order_limitations created = default_limits dflt.
Proof.
  intros Hf. simpl.
  assert (Hs : state_of
                 match apply_trade_record dflt today instruments mwi with
                 | Done s => Done s
                 | Raised e s => Raised e s
                 end
               = state_of (apply_trade_record dflt today instruments mwi)).
  { destruct (apply_trade_record dflt today instruments mwi); reflexivity. }
  rewrite Hs. unfold apply_trade_record. rewrite Hf, state_of_bind_done.
  rewrite insert_app_r_alt by lia. rewrite Nat.sub_diag. simpl.
  eexists. split; [reflexivity|].
  destruct (negb _); simpl; rewrite ?same_identification_copy; auto.
Qed.

Lemma trade_record_for_new_isin_witness :
  exists created,
    state_of
      (fst (apply_new_trade_data sample_defaults sample_date
              [sample_instrument "IRO1FOLD0001"]
              [sample_trade_data "IRO1IKCO0001" 2000 (sample_time 9 30) []]))
    = [sample_instrument "IRO1FOLD0001"] ++ [created]
    /\ identification created
       = mw_identification
           (sample_trade_data "IRO1IKCO0001" 2000 (sample_time 9 30) [])
    /\ client_type created = default_client_type sample_defaults
    /\ order_limitations created = default_limits sample_defaults.
Proof.
  apply (trade_record_for_new_isin sample_defaults sample_date
           [sample_instrument "IRO1FOLD0001"]
           (sample_trade_data "IRO1IKCO0001" 2000 (sample_time 9 30) [])).
  reflexivity.
Defined.

(** ** repository.py: [apply_new_client_type] *)

(** One record never changes the instruments, and it raises exactly when
    it finds a stored instrument with a differing field. *)
Lemma apply_client_type_record_outcome (instruments : list Instrument)
    (mwi : MarketWatchClientTypeData) :
  apply_client_type_record instruments mwi
  = if record_differs instruments mwi
    then Raised AttributeError instruments
    else Done instruments.
Proof.
  unfold apply_client_type_record, record_differs.
  destruct (find_by_tsetmc_code (mwct_tsetmc_code mwi) instruments)
    as [[n x]|]; [|reflexivity].
  destruct (client_type_ne (client_type x) mwi); reflexivity.
Qed.

(** X6: [apply_new_client_type] never changes a stored instrument,
    whether it returns or raises: it raises [AttributeError] when some
    record of the list finds a stored instrument whose eight fields differ
    from its own, and otherwise returns after comparing every record. *)
Theorem apply_new_client_type_changes_nothing
    (client_type_data : list MarketWatchClientTypeData)
    (instruments : list Instrument) :
  fst (apply_new_client_type instruments client_type_data)
  = if existsb (record_differs instruments) client_type_data
    then Raised AttributeError instruments
    else Done instruments.
Proof.
  simpl. induction client_type_data as [|mwi rest IH]; simpl; [reflexivity|].
  rewrite apply_client_type_record_outcome.
  destruct (record_differs instruments mwi); simpl; [reflexivity|exact IH].
Qed.

(** ** websocket.py: subscriber sets *)

Ltac channel_sets :=
  unfold subscribe_all, unsubscribe_all;
  rewrite ?unsubscribe_clienttype_difference, ?unsubscribe_orderbook_difference,
    ?unsubscribe_trade_difference;
  unfold subscribe_clienttype, subscribe_orderbook, subscribe_trade, set_add,
    set_trade_subscribers, set_orderbook_subscribers,
    set_clienttype_subscribers; simpl.

(** X8: subscribing a connection that is in none of the three sets of a
    channel and then unsubscribing it, on one data channel or on all, gives
    the channel back as it was. *)
Theorem subscribe_then_unsubscribe (c : ClientConnection) (ch : InstrumentChannel) :
  c ∉ trade_subscribers ch ->
  c ∉ orderbook_subscribers ch ->
  c ∉ clienttype_subscribers ch ->
  unsubscribe_trade c (subscribe_trade c ch) = ch
  /\ unsubscribe_orderbook c (subscribe_orderbook c ch) = ch
  /\ unsubscribe_clienttype c (subscribe_clienttype c ch) = ch
  /\ unsubscribe_all c (subscribe_all c ch) = ch.
Proof.
  intros Ht Ho Hc.
  assert (E : forall s : gset ClientConnection, c ∉ s -> ({[c]} ∪ s) ∖ {[c]} = s)
    by set_solver.
  repeat split; channel_sets; rewrite ?E by assumption; now destruct ch.
Qed.

Lemma subscribe_then_unsubscribe_witness :
  unsubscribe_all 7
    (subscribe_all 7 (subscribe_trade 3 (InstrumentChannel_init "IRO1FOLD0001")))
  = subscribe_trade 3 (InstrumentChannel_init "IRO1FOLD0001").
Proof.
  apply (subscribe_then_unsubscribe 7
           (subscribe_trade 3 (InstrumentChannel_init "IRO1FOLD0001"))).
  - simpl. unfold set_add. set_solver.
  - simpl. set_solver.
  - simpl. set_solver.
Defined.

(** X9: who is subscribed after an operation on all data channels: after
    [subscribe_all] the three sets hold the connection and whoever they
    held; after [unsubscribe_all] they hold whoever they held except the
    connection; the isin of the channel is never changed. *)
Theorem members_after_all (c d : ClientConnection) (ch : InstrumentChannel) :
  (ch_isin (subscribe_all c ch) = ch_isin ch
   /\ (d ∈ trade_subscribers (subscribe_all c ch)
       <-> d = c \/ d ∈ trade_subscribers ch)
   /\ (d ∈ orderbook_subscribers (subscribe_all c ch)
       <-> d = c \/ d ∈ orderbook_subscribers ch)
   /\ (d ∈ clienttype_subscribers (subscribe_all c ch)
       <-> d = c \/ d ∈ clienttype_subscribers ch))
  /\ (ch_isin (unsubscribe_all c ch) = ch_isin ch
      /\ (d ∈ trade_subscribers (unsubscribe_all c ch)
          <-> d <> c /\ d ∈ trade_subscribers ch)
      /\ (d ∈ orderbook_subscribers (unsubscribe_all c ch)
          <-> d <> c /\ d ∈ orderbook_subscribers ch)
      /\ (d ∈ clienttype_subscribers (unsubscribe_all c ch)
          <-> d <> c /\ d ∈ clienttype_subscribers ch)).
Proof.
  split; channel_sets; (split; [reflexivity|]); repeat split; set_solver.
Qed.

(** ** websocket.py: [remove_from_channels] *)

Lemma remove_from_channels_lookup (c : ClientConnection)
    (channels : list InstrumentChannel) (k : nat) :
  remove_from_channels c channels !! k = unsubscribe_all c <$> (channels !! k).
Proof. unfold remove_from_channels. apply list_lookup_fmap. Qed.

(** Who is in the sets of a channel after [unsubscribe_all]. *)
Lemma unsubscribe_all_members (c d : ClientConnection) (ch : InstrumentChannel) :
  ch_isin (unsubscribe_all c ch) = ch_isin ch
  /\ (d ∈ trade_subscribers (unsubscribe_all c ch)
      <-> d <> c /\ d ∈ trade_subscribers ch)
  /\ (d ∈ orderbook_subscribers (unsubscribe_all c ch)
      <-> d <> c /\ d ∈ orderbook_subscribers ch)
  /\ (d ∈ clienttype_subscribers (unsubscribe_all c ch)
      <-> d <> c /\ d ∈ clienttype_subscribers ch).
Proof.
  channel_sets. split; [reflexivity|]. repeat split; set_solver.
Qed.

Lemma remove_from_channels_absent (c : ClientConnection)
    (channels : list InstrumentChannel) (k : nat) (ch' : InstrumentChannel) :
  remove_from_channels c channels !! k = Some ch' ->
  (c ∉ trade_subscribers ch') /\ (c ∉ orderbook_subscribers ch')
  /\ (c ∉ clienttype_subscribers ch').
Proof.
  intros Hk. rewrite remove_from_channels_lookup in Hk.
  destruct (channels !! k) as [ch|]; [|discriminate].
  injection Hk as <-.
  destruct (unsubscribe_all_members c c ch) as (_ & Ht & Ho & Hc).
  repeat split; intros Hin; [apply Ht in Hin|apply Ho in Hin|apply Hc in Hin];
    now destruct Hin.
Qed.

(** X10: after [remove_from_channels] the connection is in no subscriber
    set of any channel, every other connection is in exactly the sets it
    was in, and the channels and their isins are the same. *)
Theorem remove_from_channels_clears (c : ClientConnection)
    (channels : list InstrumentChannel) :
  map ch_isin (remove_from_channels c channels) = map ch_isin channels
  /\ (forall k ch', remove_from_channels c channels !! k = Some ch' ->
        (c ∉ trade_subscribers ch') /\ (c ∉ orderbook_subscribers ch')
        /\ (c ∉ clienttype_subscribers ch'))
  /\ (forall k ch ch' d,
        channels !! k = Some ch ->
        remove_from_channels c channels !! k = Some ch' ->
        d <> c ->
        (d ∈ trade_subscribers ch' <-> d ∈ trade_subscribers ch)
        /\ (d ∈ orderbook_subscribers ch' <-> d ∈ orderbook_subscribers ch)
        /\ (d ∈ clienttype_subscribers ch' <-> d ∈ clienttype_subscribers ch)).
Proof.
  split; [|split].
  - unfold remove_from_channels. rewrite map_map. apply map_ext.
    intros ch. apply (unsubscribe_all_members c c ch).
  - intros k ch' Hk. now apply (remove_from_channels_absent c channels k).
  - intros k ch ch' d Hch Hk Hd. rewrite remove_from_channels_lookup, Hch in Hk.
    injection Hk as <-.
    destruct (unsubscribe_all_members c d ch) as (_ & Ht & Ho & Hc).
    rewrite Ht, Ho, Hc. tauto.
Qed.

(** ** websocket.py: the pushers *)

Lemma find_channel_by_isin_Some (i : string) (l : list InstrumentChannel)
    (n : nat) (ch : InstrumentChannel) :
  find_channel_by_isin i l = Some (n, ch) -> l !! n = Some ch /\ ch_isin ch = i.
Proof.
  revert n. induction l as [|y l IH]; intros n; simpl; [discriminate|].
  destruct (String.eqb (ch_isin y) i) eqn:E.
  - intros [= <- <-]. split; [reflexivity|]. now apply String.eqb_eq.
  - destruct (find_channel_by_isin i l) as [[m z]|]; [|discriminate].
    intros [= <- <-]. simpl. apply IH. reflexivity.
Qed.

Lemma nonempty_set_true (s : gset ClientConnection) :
  nonempty_set s = true <-> s <> ∅.
Proof.
  unfold nonempty_set. rewrite negb_true_iff, bool_decide_eq_false. reflexivity.
Qed.

(** Every broadcast of the shared loop goes to the subscriber set, which
    is not empty, of a channel that has the isin of one of the
    instruments, and carries that instrument's data under that isin. *)
Lemma pusher_loop_sound {A : Type} (the_isin : A -> string)
    (subscribers : InstrumentChannel -> gset ClientConnection)
    (data : A -> Exn + Dict) (channels : list InstrumentChannel)
    (instruments : list A) (b : Broadcast) :
  In b (fst (pusher_loop the_isin subscribers data channels instruments)) ->
  exists x k ch d,
    In x instruments
    /\ channels !! k = Some ch
    /\ ch_isin ch = the_isin x
    /\ data x = inr d
    /\ subscribers ch <> ∅
    /\ b = {| bc_clients := subscribers ch;
              bc_payload := [(the_isin x, PyDict d)] |}.
Proof.
  induction instruments as [|x rest IH]; simpl; [tauto|].
  assert (Hrest : In b (fst (pusher_loop the_isin subscribers data channels rest)) ->
                  exists x0 k ch d,
                    (x = x0 \/ In x0 rest)
                    /\ channels !! k = Some ch /\ ch_isin ch = the_isin x0
                    /\ data x0 = inr d /\ subscribers ch <> ∅
                    /\ b = {| bc_clients := subscribers ch;
                              bc_payload := [(the_isin x0, PyDict d)] |}).
  { intros H. destruct (IH H) as (x0 & k & ch & d & Hin & Hrem).
    exists x0, k, ch, d. split; [now right | exact Hrem]. }
  destruct (find_channel_by_isin (the_isin x) channels) as [[k ch]|] eqn:Hf;
    [|exact Hrest].
  destruct (nonempty_set (subscribers ch)) eqn:Hne; [|exact Hrest].
  destruct (data x) as [e|d] eqn:Hd; simpl; [tauto|].
  destruct (pusher_loop the_isin subscribers data channels rest) as [sent e].
  simpl in *. intros [<-|Hin]; [|now apply Hrest].
  destruct (find_channel_by_isin_Some _ _ _ _ Hf) as [Hk Hi].
  exists x, k, ch, d. rewrite Hi.
  repeat split; auto. now apply nonempty_set_true.
Qed.

(** X11: whatever a pusher broadcasts goes to a subscriber set that is not
    empty, the one for the pusher's data channel in a channel record whose
    isin is the isin of one of the changed instruments, and the payload
    maps that isin to the instrument's serialised data; for the order
    book the data are the rows of the changed ranks. *)
Theorem pushers_address_matching_channels (channels : list InstrumentChannel)
    (b : Broadcast) :
  (forall instruments,
     In b (fst (pusher_trade_data channels instruments)) ->
     exists x k ch d,
       In x instruments /\ channels !! k = Some ch
       /\ ch_isin ch = isin (identification x)
       /\ instrument_data_trade x = inr d
       /\ trade_subscribers ch <> ∅
       /\ b = {| bc_clients := trade_subscribers ch;
                 bc_payload := [(isin (identification x), PyDict d)] |})
  /\ (forall instruments,
        In b (fst (pusher_orderbook_data channels instruments)) ->
        exists x changed k ch d,
          In (x, changed) instruments /\ channels !! k = Some ch
          /\ ch_isin ch = isin (identification x)
          /\ instrument_data_orderbook_specific_rows x (Some changed) = inr d
          /\ orderbook_subscribers ch <> ∅
          /\ b = {| bc_clients := orderbook_subscribers ch;
                    bc_payload := [(isin (identification x), PyDict d)] |})
  /\ (forall instruments,
        In b (fst (pusher_clienttype_data channels instruments)) ->
        exists x k ch d,
          In x instruments /\ channels !! k = Some ch
          /\ ch_isin ch = isin (identification x)
          /\ instrument_data_clienttype x = inr d
          /\ clienttype_subscribers ch <> ∅
          /\ b = {| bc_clients := clienttype_subscribers ch;
                    bc_payload := [(isin (identification x), PyDict d)] |}).
Proof.
  split; [|split]; intros instruments Hin.
  - apply pusher_loop_sound in Hin. exact Hin.
  - apply pusher_loop_sound in Hin as ([x changed] & k & ch & d & H).
    exists x, changed, k, ch, d. exact H.
  - apply pusher_loop_sound in Hin. exact Hin.
Qed.

(** X12: once [remove_from_channels] has run for a connection, no pusher
    sends anything to it, whatever instruments changed. *)
Theorem removed_connection_gets_no_push (c : ClientConnection)
    (channels : list InstrumentChannel) (b : Broadcast) :
  (forall instruments,
     In b (fst (pusher_trade_data (remove_from_channels c channels) instruments)) ->
     c ∉ bc_clients b)
  /\ (forall instruments,
        In b (fst (pusher_orderbook_data (remove_from_channels c channels)
                     instruments)) ->
        c ∉ bc_clients b)
  /\ (forall instruments,
        In b (fst (pusher_clienttype_data (remove_from_channels c channels)
                     instruments)) ->
        c ∉ bc_clients b).
Proof.
  split; [|split]; intros instruments Hin;
    apply pusher_loop_sound in Hin as (x & k & ch & d & _ & Hk & _ & _ & _ & ->);
    simpl; now apply (remove_from_channels_absent c channels k ch Hk).
Qed.

Lemma pushers_address_matching_channels_witness :
  exists x k ch d,
    In x [sample_instrument "IRO1FOLD0001"]
    /\ [subscribe_trade 7 (InstrumentChannel_init "IRO1FOLD0001")] !! k = Some ch
    /\ ch_isin ch = isin (identification x)
    /\ instrument_data_trade x = inr d
    /\ trade_subscribers ch <> ∅
    /\ {| bc_clients := {[7]};
          bc_payload :=
            [("IRO1FOLD0001",
              PyDict [("trade",
                       PyList [PyInt 5010; PyInt 5020;
                               PyStr "2024/01/06 09:30:00"; PyInt 5060;
                               PyInt 4980; PyInt 4990; PyInt 5000; PyInt 37;
                               PyInt 601200000; PyInt 120000])])] |}
       = {| bc_clients := trade_subscribers ch;
            bc_payload := [(isin (identification x), PyDict d)] |}.
Proof.
  apply (proj1 (pushers_address_matching_channels
                  [subscribe_trade 7 (InstrumentChannel_init "IRO1FOLD0001")] _)
           [sample_instrument "IRO1FOLD0001"]).
  simpl. left. reflexivity.
Defined.

Lemma removed_connection_gets_no_push_witness :
  7 ∉ bc_clients
        {| bc_clients := {[3]};
           bc_payload :=
             [("IRO1FOLD0001",
               PyDict [("clienttype",
                        PyList [PyInt 1; PyInt 600; PyInt 2; PyInt 700;
                                PyInt 40; PyInt 9000; PyInt 35; PyInt 8800])])] |}.
Proof.
  apply (proj2 (proj2 (removed_connection_gets_no_push 7
                         [subscribe_all 7
                            (subscribe_clienttype 3
                               (InstrumentChannel_init "IRO1FOLD0001"))] _))
           [sample_instrument "IRO1FOLD0001"]).
  simpl. left. reflexivity.
Defined.

(** ** websocket.py: commands *)

Lemma subscription_loop_not_None (client : ClientConnection)
    (f : ClientConnection -> InstrumentChannel -> InstrumentChannel)
    (g : Instrument -> Exn + PyVal) (instruments : list (option Instrument))
    (isins : list string) :
  forall counter channels d,
    snd (subscription_loop client f g instruments counter isins channels d)
    <> Returns None.
Proof.
  induction isins as [|i rest IH]; intros counter channels d; simpl; [discriminate|].
  destruct (first_channel channels) as [[n ch]|];
    (destruct (instruments !! counter) as [[x|]|]; simpl;
     [destruct (g x); simpl; [discriminate|apply IH] | apply IH | discriminate]).
Qed.

(** X13: the handler returns [None] exactly for the commands that fail one
    of its four checks (three fields, action, channel, length of the
    identities as the code tests it), and such a command changes no
    channel; every other command returns a dict or raises. *)
Theorem response_is_None_iff_a_check_fails
    (lookup : list Instrument -> list string -> list (option Instrument))
    (repo : list Instrument) (client : ClientConnection) (message : string)
    (channels : list InstrumentChannel) :
  (snd (handle_connection_message lookup repo client message channels)
   = Returns None
   <-> (length (split_on "." message) <> 3
        \/ exists action channel ids,
             split_on "." message = [action; channel; ids]
             /\ (str_in action acceptable_actions = false
                 \/ str_in channel acceptable_channels = false
                 \/ truthy_str (fake_isin (split_on "," ids)) = true)))
  /\ (snd (handle_connection_message lookup repo client message channels)
      = Returns None ->
      fst (handle_connection_message lookup repo client message channels)
      = channels).
Proof.
  assert (Hiff : snd (handle_connection_message lookup repo client message channels)
                 = Returns None
                 <-> (length (split_on "." message) <> 3
                      \/ exists action channel ids,
                           split_on "." message = [action; channel; ids]
                           /\ (str_in action acceptable_actions = false
                               \/ str_in channel acceptable_channels = false
                               \/ truthy_str (fake_isin (split_on "," ids)) = true))).
  { split.
    - unfold handle_connection_message.
      destruct (Nat.eqb (length (split_on "." message)) 3) eqn:Hlen;
        [|intros _; left; now apply Nat.eqb_neq].
      apply Nat.eqb_eq in Hlen.
      destruct (split_on "." message) as [|a [|c [|ids [|? ?]]]]; try discriminate.
      cbn [negb].
      destruct (str_in a acceptable_actions) eqn:Ha; cbn [negb];
        [|intros _; right; exists a, c, ids; auto].
      destruct (str_in c acceptable_channels) eqn:Hc; cbn [negb];
        [|intros _; right; exists a, c, ids; auto].
      destruct (truthy_str (fake_isin (split_on "," ids))) eqn:Hf;
        [intros _; right; exists a, c, ids; auto|].
      destruct (get_channel_action_func a c); [discriminate|].
      destruct (get_initial_data_func a c); [discriminate|].
      intros H. now apply subscription_loop_not_None in H.
    - intros H.
      now rewrite (proj1 (failed_check_is_inert lookup repo client message channels H)). }
  split; [exact Hiff|].
  intros H. apply Hiff in H.
  now rewrite (proj1 (failed_check_is_inert lookup repo client message channels H)).
Qed.

Lemma response_is_None_iff_a_check_fails_witness :
  fst (handle_connection_message get_instruments [] 7 "2.trade.IRO1FOLD0001"
         [subscribe_trade 3 (InstrumentChannel_init "IRO1FOLD0001")])
  = [subscribe_trade 3 (InstrumentChannel_init "IRO1FOLD0001")].
Proof.
  apply (proj2 (response_is_None_iff_a_check_fails get_instruments [] 7
                  "2.trade.IRO1FOLD0001"
                  [subscribe_trade 3 (InstrumentChannel_init "IRO1FOLD0001")])).
  reflexivity.
Defined.

Ltac table_cases H :=
  repeat match type of H with
         | context [String.eqb ?k ?x] =>
             let E := fresh "E" in
             destruct (String.eqb k x) eqn:E;
             [apply String.eqb_eq in E; subst|];
             cbn [table_get] in H
         end.

(** X14: the two dispatch tables have a function exactly for the actions
    and channels that pass the checks, so a command that passed them never
    raises [KeyError]. *)
Theorem dispatch_tables_cover_checked_commands (action channel : string) :
  ((exists f, get_channel_action_func action channel = inr f)
   <-> str_in action acceptable_actions = true
       /\ str_in channel acceptable_channels = true)
  /\ ((exists f, get_initial_data_func action channel = inr f)
      <-> str_in action acceptable_actions = true
          /\ str_in channel acceptable_channels = true).
Proof.
  assert (Hin : str_in action acceptable_actions = true
                /\ str_in channel acceptable_channels = true
                <-> (action = "0" \/ action = "1")
                    /\ (channel = "all" \/ channel = "trade"
                        \/ channel = "orderbook" \/ channel = "clienttype")).
  { unfold str_in, acceptable_actions, acceptable_channels. simpl.
    rewrite !orb_true_iff, !String.eqb_eq. intuition discriminate. }
  rewrite Hin.
  split; split.
  - intros [f Hf]. unfold get_channel_action_func in Hf. cbn [table_get] in Hf.
    table_cases Hf; try discriminate Hf; auto 8.
  - intros [[->| ->] [->|[->|[->| ->]]]]; eexists; reflexivity.
  - intros [f Hf]. unfold get_initial_data_func in Hf. cbn [table_get] in Hf.
    table_cases Hf; try discriminate Hf; auto 8.
  - intros [[->| ->] [->|[->|[->| ->]]]]; eexists; reflexivity.
Qed.

(** A command that passes the four checks runs the subscription loop over
    its identities. *)
Lemma checked_command_runs
    (lookup : list Instrument -> list string -> list (option Instrument))
    (repo : list Instrument) (client : ClientConnection) (message : string)
    (channels : list InstrumentChannel) (action channel ids : string)
    (act : ClientConnection -> InstrumentChannel -> InstrumentChannel)
    (g : Instrument -> Exn + PyVal) :
  split_on "." message = [action; channel; ids] ->
  str_in action acceptable_actions = true ->
  str_in channel acceptable_channels = true ->
  truthy_str (fake_isin (split_on "," ids)) = false ->
  get_channel_action_func action channel = inr act ->
  get_initial_data_func action channel = inr g ->
  handle_connection_message lookup repo client message channels
  = subscription_loop client act g (lookup repo (split_on "," ids)) 0
      (split_on "," ids) channels [].
Proof.
  intros Hs Ha Hc Hf Hact Hg. unfold handle_connection_message.
  rewrite Hs. cbn [length Nat.eqb negb]. rewrite Ha, Hc, Hf, Hact, Hg.
  reflexivity.
Qed.

Lemma fake_isin_single (i : string) :
  String.length i = 12 -> truthy_str (fake_isin [i]) = false.
Proof. intros H. unfold fake_isin. simpl. rewrite H. reflexivity. Qed.

Lemma subscription_loop_single (client : ClientConnection)
    (act : ClientConnection -> InstrumentChannel -> InstrumentChannel)
    (g : Instrument -> Exn + PyVal) (x : Instrument) (i : string)
    (channels : list InstrumentChannel) :
  subscription_loop client act g [Some x] 0 [i] channels []
  = (served_once act client i channels,
     match g x with
     | inl e => Raises e
     | inr v => Returns (Some [(i, v)])
     end).
Proof.
  destruct channels as [|ch rest]; simpl; destruct (g x); reflexivity.
Qed.

(** X15: a subscribe command for one identity that the repository's lookup
    answers with an instrument that has a recorded trade is answered with
    one frame, which maps the identity to the data of the requested
    channel alone (of the four channels for [all]), and the connection
    stays open. *)
Theorem subscribe_is_answered_with_the_snapshot
    (lookup : list Instrument -> list string -> list (option Instrument))
    (repo : list Instrument) (client : ClientConnection)
    (message channel i : string) (channels : list InstrumentChannel)
    (x : Instrument) (ltd : DateTime) :
  split_on "." message = ["1"; channel; i] ->
  split_on "," i = [i] ->
  String.length i = 12 ->
  str_in channel acceptable_channels = true ->
  lookup repo [i] = [Some x] ->
  last_trade_datetime (intraday_trade_candle x) = Some ltd ->
  exists d,
    handle_connection_turn lookup repo client message channels
    = {| hd_channels := hd_channels
                          (handle_connection_turn lookup repo client message channels);
         hd_sent := [[(i, PyDict d)]];
         hd_open := true |}
    /\ (channel = "all" /\ instrument_data_all x = inr d
        \/ channel = "trade" /\ instrument_data_trade x = inr d
        \/ channel = "orderbook" /\ instrument_data_orderbook x = inr d
        \/ channel = "clienttype" /\ instrument_data_clienttype x = inr d).
Proof.
  intros Hs Hi Hlen Hc Hl Hltd.
  assert (Hch : channel = "all" \/ channel = "trade" \/ channel = "orderbook"
                \/ channel = "clienttype").
  { unfold str_in, acceptable_channels in Hc. simpl in Hc.
    rewrite !orb_true_iff, !String.eqb_eq in Hc. intuition discriminate. }
  assert (Htrade : exists t, instrument_data_trade x = inr t).
  { unfold instrument_data_trade. rewrite Hltd. eauto. }
  destruct Htrade as [t Ht].
  assert (Hall : exists a, instrument_data_all x = inr a).
  { unfold instrument_data_all. rewrite Ht. simpl. eauto. }
  destruct Hall as [a Ha].
  unfold handle_connection_turn.
  destruct Hch as [->|[->|[->| ->]]];
    (erewrite checked_command_runs;
     [|exact Hs|reflexivity|reflexivity|rewrite Hi; now apply fake_isin_single
      |reflexivity|reflexivity]);
    rewrite Hi, Hl, subscription_loop_single; simpl;
    rewrite ?Ha, ?Ht; simpl; eexists; (split; [reflexivity|]); auto 8.
Qed.

Lemma subscribe_is_answered_with_the_snapshot_witness :
  exists d,
    handle_connection_turn get_instruments [sample_instrument "IRO1FOLD0001"] 7
      "1.orderbook.IRO1FOLD0001" []
    = {| hd_channels :=
           hd_channels
             (handle_connection_turn get_instruments
                [sample_instrument "IRO1FOLD0001"] 7 "1.orderbook.IRO1FOLD0001" []);
         hd_sent := [[("IRO1FOLD0001", PyDict d)]];
         hd_open := true |}
    /\ ("orderbook" = "all"
        /\ instrument_data_all (sample_instrument "IRO1FOLD0001") = inr d
        \/ "orderbook" = "trade"
           /\ instrument_data_trade (sample_instrument "IRO1FOLD0001") = inr d
        \/ "orderbook" = "orderbook"
           /\ instrument_data_orderbook (sample_instrument "IRO1FOLD0001") = inr d
        \/ "orderbook" = "clienttype"
           /\ instrument_data_clienttype (sample_instrument "IRO1FOLD0001") = inr d).
Proof.
  apply (subscribe_is_answered_with_the_snapshot get_instruments
           [sample_instrument "IRO1FOLD0001"] 7 "1.orderbook.IRO1FOLD0001"
           "orderbook" "IRO1FOLD0001" [] (sample_instrument "IRO1FOLD0001")
           (combine sample_date (sample_time 9 30)));
    reflexivity.
Defined.

(** X16: a subscribe command for [trade] or [all] and one identity that
    the repository's lookup answers with an instrument without a recorded
    trade makes the handler raise [AttributeError]: nothing is sent, the
    connection is closed, and it is left in no subscriber set. *)
Theorem subscribe_before_first_trade_closes_the_connection
    (lookup : list Instrument -> list string -> list (option Instrument))
    (repo : list Instrument) (client : ClientConnection)
    (message channel i : string) (channels : list InstrumentChannel)
    (x : Instrument) :
  split_on "." message = ["1"; channel; i] ->
  split_on "," i = [i] ->
  String.length i = 12 ->
  channel = "trade" \/ channel = "all" ->
  lookup repo [i] = [Some x] ->
  last_trade_datetime (intraday_trade_candle x) = None ->
  snd (handle_connection_message lookup repo client message channels)
  = Raises AttributeError
  /\ hd_sent (handle_connection_turn lookup repo client message channels) = []
  /\ hd_open (handle_connection_turn lookup repo client message channels) = false
  /\ forall k ch,
       hd_channels (handle_connection_turn lookup repo client message channels) !! k
       = Some ch ->
       (client ∉ trade_subscribers ch) /\ (client ∉ orderbook_subscribers ch)
       /\ (client ∉ clienttype_subscribers ch).
Proof.
  intros Hs Hi Hlen Hch Hl Hltd.
  assert (Ht : instrument_data_trade x = inl AttributeError).
  { unfold instrument_data_trade. now rewrite Hltd. }
  assert (Ha : instrument_data_all x = inl AttributeError).
  { unfold instrument_data_all. now rewrite Ht. }
  unfold handle_connection_turn.
  destruct Hch as [-> | ->];
    (erewrite checked_command_runs;
     [|exact Hs|reflexivity|reflexivity|rewrite Hi; now apply fake_isin_single
      |reflexivity|reflexivity]);
    rewrite Hi, Hl, subscription_loop_single; simpl; rewrite ?Ha, ?Ht; simpl;
    (repeat split; try reflexivity);
    apply remove_from_channels_absent in H; tauto.
Qed.

Lemma subscribe_before_first_trade_closes_the_connection_witness :
  hd_open
    (handle_connection_turn get_instruments
       [set_candle (sample_instrument "IRO1FOLD0001") (sample_candle 0 None)] 7
       "1.all.IRO1FOLD0001"
       [subscribe_orderbook 7 (InstrumentChannel_init "IRO1FOLD0001")])
  = false.
Proof.
  apply (subscribe_before_first_trade_closes_the_connection get_instruments
           [set_candle (sample_instrument "IRO1FOLD0001") (sample_candle 0 None)]
           7 "1.all.IRO1FOLD0001" "all" "IRO1FOLD0001"
           [subscribe_orderbook 7 (InstrumentChannel_init "IRO1FOLD0001")]
           (set_candle (sample_instrument "IRO1FOLD0001") (sample_candle 0 None)));
    try reflexivity.
  now right.
Defined.

(** What [pusher_orderbook_data] does for one changed instrument whose
    channel is the first of the list and has order-book subscribers. *)
Lemma pusher_orderbook_data_first_channel (ch : InstrumentChannel)
    (others : list InstrumentChannel) (x : Instrument) (changed : list nat)
    (d : Dict) :
  ch_isin ch = isin (identification x) ->
  orderbook_subscribers ch <> ∅ ->
  instrument_data_orderbook_specific_rows x (Some changed) = inr d ->
  pusher_orderbook_data (ch :: others) [(x, changed)]
  = ([{| bc_clients := orderbook_subscribers ch;
         bc_payload := [(ch_isin ch, PyDict d)] |}], None).
Proof.
  intros Hi Hne Hd. unfold pusher_orderbook_data. simpl.
  rewrite Hi at 1. rewrite String.eqb_refl.
  apply nonempty_set_true in Hne. rewrite Hne.
  unfold instrument_data_orderbook_specific_rows in Hd. injection Hd as <-.
  reflexivity.
Qed.

(** X17: when the channel of an identity is the first of the broker's
    list, an unsubscribe command for its order book takes the connection
    out of the next order-book push for that identity, and the push still
    goes to everyone else who was subscribed, whatever the repository's
    lookup answers. *)
Theorem unsubscribed_connection_is_left_out_of_the_push
    (lookup : list Instrument -> list string -> list (option Instrument))
    (repo : list Instrument) (c d : ClientConnection) (message i : string)
    (ch : InstrumentChannel) (others : list InstrumentChannel)
    (x : Instrument) (changed : list nat) :
  split_on "." message = ["0"; "orderbook"; i] ->
  split_on "," i = [i] ->
  String.length i = 12 ->
  ch_isin ch = i ->
  isin (identification x) = i ->
  d ∈ orderbook_subscribers ch ->
  d <> c ->
  exists payload,
    pusher_orderbook_data
      (hd_channels (handle_connection_turn lookup repo c message (ch :: others)))
      [(x, changed)]
    = ([{| bc_clients := orderbook_subscribers ch ∖ {[c]};
           bc_payload := payload |}], None).
Proof.
  intros Hs Hi Hlen Hch Hx Hd Hne.
  assert (Hset : orderbook_subscribers ch ∖ {[c]} <> ∅) by set_solver.
  unfold handle_connection_turn.
  erewrite checked_command_runs;
    [|exact Hs|reflexivity|reflexivity|rewrite Hi; now apply fake_isin_single
     |reflexivity|reflexivity].
  rewrite Hi.
  destruct (instrument_data_orderbook_specific_rows x (Some changed)) as [e|p] eqn:Hp;
    [discriminate|].
  destruct (lookup repo [i]) as [|[y|] l]; simpl.
  - eexists.
    replace (unsubscribe_all c (unsubscribe_orderbook c ch))
      with (set_orderbook_subscribers (unsubscribe_all c ch)
              (orderbook_subscribers ch ∖ {[c]})).
    + rewrite (pusher_orderbook_data_first_channel _ _ x changed p); simpl;
        [reflexivity| |exact Hset|exact Hp].
      rewrite (proj1 (unsubscribe_all_members c c ch)). congruence.
    + channel_sets. f_equal. set_solver.
  - eexists. rewrite unsubscribe_orderbook_difference.
    rewrite (pusher_orderbook_data_first_channel _ _ x changed p); simpl;
      [reflexivity|congruence|exact Hset|exact Hp].
  - eexists. rewrite unsubscribe_orderbook_difference.
    rewrite (pusher_orderbook_data_first_channel _ _ x changed p); simpl;
      [reflexivity|congruence|exact Hset|exact Hp].
Qed.

Lemma unsubscribed_connection_is_left_out_of_the_push_witness :
  exists payload,
    pusher_orderbook_data
      (hd_channels
         (handle_connection_turn get_instruments
            [sample_instrument "IRO1FOLD0001"] 7 "0.orderbook.IRO1FOLD0001"
            (subscribe_orderbook 7
               (subscribe_orderbook 3 (InstrumentChannel_init "IRO1FOLD0001"))
             :: [])))
      [(sample_instrument "IRO1FOLD0001", [2])]
    = ([{| bc_clients :=
             orderbook_subscribers
               (subscribe_orderbook 7
                  (subscribe_orderbook 3 (InstrumentChannel_init "IRO1FOLD0001")))
             ∖ {[7]};
           bc_payload := payload |}], None).
Proof.
  apply (unsubscribed_connection_is_left_out_of_the_push get_instruments
           [sample_instrument "IRO1FOLD0001"] 7 3 "0.orderbook.IRO1FOLD0001"
           "IRO1FOLD0001");
    try reflexivity.
  lia.
Defined.

(** ** Splitting and joining *)

Lemma split_on_nonempty (sep : ascii) (s : string) : split_on sep s <> [].
Proof.
  destruct s as [|c rest]; simpl; [discriminate|].
  destruct (Ascii.eqb c sep); [discriminate|].
  destruct (split_on sep rest); discriminate.
Qed.

Lemma str_join_cons (sep x : string) (y : string) (l : list string) :
  str_join sep (x :: y :: l) = x +:+ sep +:+ str_join sep (y :: l).
Proof. reflexivity. Qed.

(** X18: splitting loses nothing: joining the pieces of [s.split(sep)]
    with the separator gives [s] back, so the three fields and the
    identity list of a command are read off the message as sent. *)
Theorem join_of_split (sep : ascii) (s : string) :
  str_join (String sep EmptyString) (split_on sep s) = s.
Proof.
  induction s as [|c rest IH]; simpl; [reflexivity|].
  destruct (Ascii.eqb c sep) eqn:E.
  - apply Ascii.eqb_eq in E. subst c.
    destruct (split_on sep rest) as [|h t] eqn:Hs;
      [now apply split_on_nonempty in Hs|].
    rewrite str_join_cons, IH. reflexivity.
  - destruct (split_on sep rest) as [|h t] eqn:Hs;
      [now apply split_on_nonempty in Hs|].
    rewrite <- IH. destruct t as [|h' t']; reflexivity.
Qed.

Lemma split_on_without (sep : ascii) (s : string) :
  has_char sep s = false -> split_on sep s = [s].
Proof.
  induction s as [|c rest IH]; simpl; [reflexivity|].
  rewrite orb_false_iff. intros [Hc Hr]. rewrite Hc, (IH Hr). reflexivity.
Qed.

Lemma split_on_app (sep : ascii) (a b : string) :
  has_char sep a = false ->
  split_on sep (a +:+ String sep b) = a :: split_on sep b.
Proof.
  induction a as [|c rest IH]; simpl.
  - intros _. now rewrite Ascii.eqb_refl.
  - rewrite orb_false_iff. intros [Hc Hr]. rewrite Hc, (IH Hr). reflexivity.
Qed.

Lemma split_of_join_list (sep : ascii) (l : list string) :
  Forall (fun s => has_char sep s = false) l ->
  split_on sep (str_join (String sep EmptyString) l)
  = match l with
    | [] => [""]
    | _ :: _ => l
    end.
Proof.
  induction l as [|x l IH]; intros Hall; [reflexivity|].
  apply Forall_cons in Hall as [Hx Hl].
  destruct l as [|y l].
  - simpl. now apply split_on_without.
  - rewrite str_join_cons.
    change (x +:+ String sep "" +:+ str_join (String sep "") (y :: l))
      with (x +:+ String sep (str_join (String sep "") (y :: l))).
    rewrite split_on_app by exact Hx. now rewrite (IH Hl).
Qed.

(** X19: joining strings that do not contain the separator and splitting
    the result gives the strings back, for a list that is not empty; the
    join of the empty list splits into one empty string. *)
Theorem split_of_join (sep : ascii) (l : list string) :
  Forall (fun s => has_char sep s = false) l ->
  split_on sep (str_join (String sep EmptyString) l)
  = match l with
    | [] => [""]
    | _ :: _ => l
    end.
Proof. apply split_of_join_list. Qed.

Lemma split_of_join_witness :
  split_on "," (str_join "," ["IRO1FOLD0001"; "IRO1IKCO0001"])
  = ["IRO1FOLD0001"; "IRO1IKCO0001"].
Proof.
  apply (split_of_join "," ["IRO1FOLD0001"; "IRO1IKCO0001"]).
  repeat constructor.
Defined.

Lemma fake_isin_all_12 (isins : list string) :
  Forall (fun s => String.length s = 12) isins -> fake_isin isins = None.
Proof.
  unfold fake_isin. induction isins as [|a l IH]; intros H; [reflexivity|].
  apply Forall_cons in H as [Ha Hl]. simpl. rewrite Ha. simpl. now apply IH.
Qed.

(** X20: the frame that [TsetmcClient.subscribe] builds is read by the
    broker as the action [1], the channel [all] and the isins of the
    subscribed instruments, when no isin holds a dot or a comma; with isins
    of 12 characters it passes the four checks.  With no subscribed
    instrument the identity list is read as one empty identity, which
    passes the checks as well. *)
Theorem subscribe_request_is_read_back (subscribed_instruments : list Instrument) :
  Forall (fun x => has_char "." (isin (identification x)) = false
                   /\ has_char "," (isin (identification x)) = false
                   /\ String.length (isin (identification x)) = 12)
    subscribed_instruments ->
  exists ids,
    split_on "." (subscribe_request subscribed_instruments) = ["1"; "all"; ids]
    /\ split_on "," ids
       = match subscribed_instruments with
         | [] => [""]
         | _ :: _ => isins_of subscribed_instruments
         end
    /\ truthy_str (fake_isin (split_on "," ids)) = false.
Proof.
  intros Hall.
  set (isins := map (fun x => isin (identification x)) subscribed_instruments).
  assert (Hdot : Forall (fun s => has_char "." s = false) isins).
  { unfold isins. apply Forall_map. eapply Forall_impl; [exact Hall|]. simpl. tauto. }
  assert (Hcomma : Forall (fun s => has_char "," s = false) isins).
  { unfold isins. apply Forall_map. eapply Forall_impl; [exact Hall|]. simpl. tauto. }
  assert (Hlen : Forall (fun s => String.length s = 12) isins).
  { unfold isins. apply Forall_map. eapply Forall_impl; [exact Hall|]. simpl. tauto. }
  assert (Hjoin : has_char "." (str_join "," isins) = false).
  { clear Hcomma Hlen. induction isins as [|a [|b l] IH].
    - reflexivity.
    - simpl. now apply Forall_cons in Hdot as [? _].
    - rewrite str_join_cons. apply Forall_cons in Hdot as [Ha Hl].
      specialize (IH Hl). revert Ha IH. generalize (str_join "," (b :: l)).
      intros t Ha Ht. induction a as [|c a IHa]; simpl in *; [exact Ht|].
      apply orb_false_iff in Ha as [Hc Ha]. rewrite Hc. simpl. now apply IHa. }
  exists (str_join "," isins). split; [|split].
  - unfold subscribe_request. fold isins.
    change ("1.all." +:+ str_join "," isins)
      with ("1" +:+ String "." ("all" +:+ String "." (str_join "," isins))).
    rewrite split_on_app by reflexivity.
    rewrite split_on_app by reflexivity.
    now rewrite split_on_without.
  - rewrite (split_of_join_list "," isins Hcomma). unfold isins, isins_of.
    now destruct subscribed_instruments.
  - rewrite (split_of_join_list "," isins Hcomma).
    destruct isins as [|a l] eqn:E; [reflexivity|].
    now rewrite (fake_isin_all_12 (a :: l) Hlen).
Qed.

Lemma subscribe_request_is_read_back_witness :
  exists ids,
    split_on "." (subscribe_request [sample_instrument "IRO1FOLD0001";
                                     sample_instrument "IRO1IKCO0001"])
    = ["1"; "all"; ids]
    /\ split_on "," ids
       = isins_of [sample_instrument "IRO1FOLD0001"; sample_instrument "IRO1IKCO0001"]
    /\ truthy_str (fake_isin (split_on "," ids)) = false.
Proof.
  apply (subscribe_request_is_read_back
           [sample_instrument "IRO1FOLD0001"; sample_instrument "IRO1IKCO0001"]).
  repeat constructor.
Defined.

(** ** websocket.py: the serialisers *)

Lemma nat_in_In (rn : nat) (l : list nat) : nat_in rn l = true <-> In rn l.
Proof.
  unfold nat_in. rewrite existsb_exists. split.
  - intros (y & Hy & E). apply Nat.eqb_eq in E. now subst.
  - intros H. exists rn. split; [exact H|apply Nat.eqb_refl].
Qed.

Lemma filter_enumerate_ext {A : Type} (wanted wanted' : list nat) (l : list A) :
  forall k,
    (forall rn, k <= rn < k + length l -> (In rn wanted <-> In rn wanted')) ->
    filter (fun p : nat * A => nat_in (fst p) wanted) (enumerate_from k l)
    = filter (fun p : nat * A => nat_in (fst p) wanted') (enumerate_from k l).
Proof.
  induction l as [|a l IH]; intros k H; simpl; [reflexivity|].
  rewrite !filter_cons. simpl.
  rewrite (IH (S k)) by (intros rn Hrn; apply H; simpl; lia).
  assert (E : nat_in k wanted = nat_in k wanted').
  { apply eq_true_iff_eq. rewrite !nat_in_In. apply H. simpl. lia. }
  rewrite E. destruct (nat_in k wanted'); reflexivity.
Qed.

(** X21: the rows that [instrument_data_orderbook_specific_rows] emits
    depend only on which ranks of the stored book are in the list: ranks
    past the end of the book, the order of the list and repeated ranks
    make no difference. *)
Theorem specific_rows_depend_on_ranks_in_range (x : Instrument)
    (wanted wanted' : list nat) :
  (forall rn, rn < length (rows (orderbook x)) ->
     (In rn wanted <-> In rn wanted')) ->
  instrument_data_orderbook_specific_rows x (Some wanted)
  = instrument_data_orderbook_specific_rows x (Some wanted').
Proof.
  intros H. unfold instrument_data_orderbook_specific_rows.
  rewrite (filter_enumerate_ext wanted wanted' _ 0); [reflexivity|].
  intros rn Hrn. apply H. lia.
Qed.

Lemma specific_rows_depend_on_ranks_in_range_witness :
  instrument_data_orderbook_specific_rows (sample_instrument "IRO1FOLD0001")
    (Some [2; 0; 2; 7])
  = instrument_data_orderbook_specific_rows (sample_instrument "IRO1FOLD0001")
      (Some [0; 2]).
Proof.
  apply (specific_rows_depend_on_ranks_in_range
           (sample_instrument "IRO1FOLD0001") [2; 0; 2; 7] [0; 2]).
  intros rn Hrn. simpl in *. lia.
Defined.

Lemma filter_enumerate_all {A : Type} (l : list A) :
  forall k wanted,
    (forall rn, k <= rn < k + length l -> In rn wanted) ->
    filter (fun p : nat * A => nat_in (fst p) wanted) (enumerate_from k l)
    = enumerate_from k l.
Proof.
  induction l as [|a l IH]; intros k wanted H; simpl; [reflexivity|].
  rewrite filter_cons. simpl.
  rewrite (IH (S k)) by (intros rn Hrn; apply H; simpl; lia).
  rewrite (proj2 (nat_in_In k wanted)) by (apply H; simpl; lia).
  reflexivity.
Qed.

Lemma filter_enumerate_none {A : Type} (l : list A) :
  forall k,
    filter (fun p : nat * A => nat_in (fst p) []) (enumerate_from k l) = [].
Proof. induction l as [|a l IH]; intros k; simpl; [reflexivity|]. apply IH. Qed.

(** X22: asked for every rank of the stored book, the partial serialiser
    gives what [instrument_data_orderbook] gives; asked for no rank it
    gives an empty row list; and called without a rank list (its default,
    [None]) it raises [TypeError] as soon as the book has a row. *)
Theorem specific_rows_at_the_extremes (x : Instrument) :
  instrument_data_orderbook_specific_rows x
    (Some (seq 0 (length (rows (orderbook x)))))
  = instrument_data_orderbook x
  /\ instrument_data_orderbook_specific_rows x (Some [])
     = inr [("orderbook", PyList [])]
  /\ instrument_data_orderbook_specific_rows x None
     = match rows (orderbook x) with
       | [] => inr [("orderbook", PyList [])]
       | _ :: _ => inl TypeError
       end.
Proof.
  unfold instrument_data_orderbook_specific_rows, instrument_data_orderbook.
  split; [|split].
  - rewrite filter_enumerate_all; [reflexivity|].
    intros rn Hrn. apply in_seq. lia.
  - now rewrite filter_enumerate_none.
  - reflexivity.
Qed.

(** X23: [instrument_data_all] raises [AttributeError] for an instrument
    without a recorded trade; for any other it returns the entries of the
    four serialisers under the keys thresholds, trade, orderbook and
    clienttype, in that order. *)
Theorem instrument_data_all_merges_the_four (x : Instrument) :
  match last_trade_datetime (intraday_trade_candle x) with
  | None =>
      instrument_data_trade x = inl AttributeError
      /\ instrument_data_all x = inl AttributeError
  | Some _ =>
      exists th t o c,
        instrument_data_thresholds x = inr th
        /\ instrument_data_trade x = inr t
        /\ instrument_data_orderbook x = inr o
        /\ instrument_data_clienttype x = inr c
        /\ instrument_data_all x = inr (th ++ t ++ o ++ c)
        /\ map fst (th ++ t ++ o ++ c)
           = ["thresholds"; "trade"; "orderbook"; "clienttype"]
  end.
Proof.
  unfold instrument_data_all, instrument_data_trade.
  destruct (last_trade_datetime (intraday_trade_candle x)) as [ltd|].
  - do 4 eexists. repeat split.
  - split; reflexivity.
Qed.

(** ** client.py: decoding what the broker serialises *)

Section ClientProperties.

Variable int_of_str : string -> option Z.
Variable fromisoformat : string -> option DateTime.

(** X24: how the client decodes a thresholds entry for a subscribed
    instrument: two integers are stored as the two price limits; a null
    first value raises [TypeError] with nothing stored; an integer followed
    by null raises [TypeError] after the max price has been stored; an
    empty list raises [IndexError] with nothing stored. *)
Theorem thresholds_entry_decoding (i : string)
    (subscribed_instruments : list Instrument) (n : nat) (x : Instrument)
    (hi lo : Z) (more : list PyVal) :
  find_by_isin i subscribed_instruments = Some (n, x) ->
  process_message int_of_str fromisoformat
    [(i, PyDict [("thresholds", PyList [PyInt hi; PyInt lo])])]
    subscribed_instruments
  = Done (<[n := set_limits x {| lim_max_price := hi; lim_min_price := lo |}]>
            subscribed_instruments)
  /\ process_message int_of_str fromisoformat
       [(i, PyDict [("thresholds", PyList (PyNone :: more))])]
       subscribed_instruments
     = Raised TypeError subscribed_instruments
  /\ process_message int_of_str fromisoformat
       [(i, PyDict [("thresholds", PyList [PyInt hi; PyNone])])]
       subscribed_instruments
     = Raised TypeError
         (<[n := store_limit_max_price x hi]> subscribed_instruments)
  /\ process_message int_of_str fromisoformat
       [(i, PyDict [("thresholds", PyList [])])] subscribed_instruments
     = Raised IndexError subscribed_instruments.
Proof.
  intros Hf.
  assert (Hid : <[n := x]> subscribed_instruments = subscribed_instruments).
  { apply list_insert_id. now apply find_by_isin_Some in Hf as [? _]. }
  repeat split; simpl; rewrite Hf; simpl; rewrite ?Hid; reflexivity.
Qed.

(** X25: the trade entry that the broker serialises is decoded by the
    client into the nine numbers of the served candle when
    [fromisoformat] accepts the time stamp as the broker writes it; when
    it does not, [process_message] raises [ValueError] with the close and
    last prices already stored and the rest of the candle as it was. *)
Theorem trade_entry_decoding (served : Instrument) (served_ltd : DateTime)
    (d : Dict) (i : string) (subscribed_instruments : list Instrument)
    (n : nat) (x : Instrument) :
  last_trade_datetime (intraday_trade_candle served) = Some served_ltd ->
  instrument_data_trade served = inr d ->
  find_by_isin i subscribed_instruments = Some (n, x) ->
  process_message int_of_str fromisoformat [(i, PyDict d)] subscribed_instruments
  = match fromisoformat (ltd_display served_ltd) with
    | Some ltd =>
        Done (<[n := set_candle x
                       (decoded_candle (intraday_trade_candle served) ltd)]>
                subscribed_instruments)
    | None =>
        Raised ValueError
          (<[n := store_last_price
                    (store_close_price x
                       (close_price (intraday_trade_candle served)))
                    (last_price (intraday_trade_candle served))]>
             subscribed_instruments)
    end.
Proof.
  intros Hltd Hd Hf. unfold instrument_data_trade in Hd. rewrite Hltd in Hd.
  injection Hd as <-. simpl. rewrite Hf. simpl.
  unfold dispatch_channel. simpl.
  unfold message_trade, then_do, assign, int_at. simpl.
  destruct (fromisoformat (ltd_display served_ltd)); reflexivity.
Qed.



Lemma channels_loop_passed_over (items : Dict) (x : Instrument) :
  Forall (fun kv => passed_over (fst kv) = true) items ->
  channels_loop int_of_str fromisoformat items x = Done x.
Proof.
  induction items as [|[channel data] rest IH]; intros H; [reflexivity|].
  apply Forall_cons in H as [Hc Hr]. simpl in Hc. unfold passed_over in Hc.
  rewrite !andb_true_iff, !negb_true_iff in Hc. destruct Hc as [[H1 H2] H3].
  simpl. unfold dispatch_channel. rewrite H1, H2, H3.
  destruct (String.eqb channel "clienttype"); now apply IH.
Qed.

(** X27: a frame that, for subscribed instruments only, carries entries of
    the client-type channel or of channels the client does not know is
    processed to its end and changes nothing. *)
Theorem unknown_channels_are_passed_over (message_js : Dict)
    (subscribed_instruments : list Instrument) :
  Forall (fun entry =>
            find_by_isin (fst entry) subscribed_instruments <> None
            /\ exists items,
                 snd entry = PyDict items
                 /\ Forall (fun kv => passed_over (fst kv) = true) items)
    message_js ->
  process_message int_of_str fromisoformat message_js subscribed_instruments
  = Done subscribed_instruments.
Proof.
  induction message_js as [|[i channels] rest IH]; intros H; [reflexivity|].
  apply Forall_cons in H as [[Hf (items & Hi & Hp)] Hr]. simpl in *.
  destruct (find_by_isin i subscribed_instruments) as [[n x]|] eqn:E;
    [|contradiction].
  rewrite Hi. simpl. rewrite (channels_loop_passed_over items x Hp).
  rewrite list_insert_id by (now apply find_by_isin_Some in E as [? _]).
  now apply IH.
Qed.

Lemma assign_keeps {A : Type} (value : Exn + A) (store : Instrument -> A -> Instrument)
    (x : Instrument) :
  (forall y a, kept_by_client (store y a) = kept_by_client y) ->
  kept_by_client (state_of (assign value store x)) = kept_by_client x.
Proof. intros H. unfold assign. destruct value; simpl; [reflexivity|apply H]. Qed.

Lemma then_do_keeps (f g : Instrument -> Outcome Instrument) :
  (forall x, kept_by_client (state_of (f x)) = kept_by_client x) ->
  (forall x, kept_by_client (state_of (g x)) = kept_by_client x) ->
  forall x, kept_by_client (state_of (then_do f g x)) = kept_by_client x.
Proof.
  intros Hf Hg x. unfold then_do. specialize (Hf x).
  destruct (f x) as [y|e y]; simpl in *; [|exact Hf].
  now rewrite Hg.
Qed.

Lemma dispatch_channel_keeps (channel : string) (data : PyVal) (x : Instrument) :
  kept_by_client (state_of (dispatch_channel int_of_str fromisoformat channel data x))
  = kept_by_client x.
Proof.
  unfold dispatch_channel.
  destruct (String.eqb channel "thresholds").
  { unfold message_thresholds.
    apply then_do_keeps; intros y; apply assign_keeps; reflexivity. }
  destruct (String.eqb channel "trade").
  { unfold message_trade.
    repeat (apply then_do_keeps; [intros y; apply assign_keeps; reflexivity|]; intros ?).
    apply assign_keeps; reflexivity. }
  destruct (String.eqb channel "orderbook"); [reflexivity|].
  destruct (String.eqb channel "clienttype"); reflexivity.
Qed.

Lemma channels_loop_keeps (items : Dict) :
  forall x,
    kept_by_client (state_of (channels_loop int_of_str fromisoformat items x))
    = kept_by_client x.
Proof.
  induction items as [|[channel data] rest IH]; intros x; simpl; [reflexivity|].
  pose proof (dispatch_channel_keeps channel data x) as H.
  destruct (dispatch_channel int_of_str fromisoformat channel data x) as [y|e y];
    simpl in *; [|exact H].
  now rewrite IH.
Qed.

(** X28: whatever the frame holds and however [process_message] ends, the
    subscribed instruments stay the same in number and order, and none of
    them gets another identification, order book or client type: the
    client writes candles and price limits only. *)
Theorem process_message_writes_candles_and_limits_only (message_js : Dict) :
  forall subscribed_instruments,
    map kept_by_client
      (state_of (process_message int_of_str fromisoformat message_js
                   subscribed_instruments))
    = map kept_by_client subscribed_instruments.
Proof.
  induction message_js as [|[i channels] rest IH]; intros subscribed_instruments;
    simpl; [reflexivity|].
  destruct (find_by_isin i subscribed_instruments) as [[n x]|] eqn:Hf;
    [|reflexivity].
  destruct (py_items channels) as [e|items]; [reflexivity|].
  pose proof (channels_loop_keeps items x) as Hk.
  assert (Hins : forall y, kept_by_client y = kept_by_client x ->
                   map kept_by_client (<[n := y]> subscribed_instruments)
                   = map kept_by_client subscribed_instruments).
  { intros y Hy. rewrite list_fmap_insert. apply list_insert_id.
    rewrite list_lookup_fmap. apply find_by_isin_Some in Hf as [-> _].
    simpl. now rewrite Hy. }
  destruct (channels_loop int_of_str fromisoformat items x) as [y|e y];
    simpl in *.
  - rewrite IH. now apply Hins.
  - now apply Hins.
Qed.

End ClientProperties.

Lemma thresholds_entry_decoding_witness :
  process_message (fun _ => None) (fun _ => None)
    [("IRO1FOLD0001", PyDict [("thresholds", PyList [PyNone; PyNone])])]
    [sample_instrument "IRO1FOLD0001"]
  = Raised TypeError [sample_instrument "IRO1FOLD0001"].
Proof.
  apply (proj1 (proj2 (thresholds_entry_decoding (fun _ => None) (fun _ => None)
                         "IRO1FOLD0001" [sample_instrument "IRO1FOLD0001"] 0
                         (sample_instrument "IRO1FOLD0001") 0 0 [PyNone]
                         eq_refl))).
Defined.

Lemma trade_entry_decoding_witness :
  exists d,
    instrument_data_trade (sample_instrument "IRO1FOLD0001") = inr d
    /\ process_message (fun _ => None) (fun _ => None)
         [("IRO1FOLD0001", PyDict d)]
         [set_candle (sample_instrument "IRO1FOLD0001") (sample_candle 0 None)]
       = Raised ValueError
           [set_candle (sample_instrument "IRO1FOLD0001")
              (candle_with 5000 5010 5020 4990 5060 4980 120000 601200000 37 None)].
Proof.
  eexists. split; [reflexivity|].
  apply (trade_entry_decoding (fun _ => None) (fun _ => None)
           (sample_instrument "IRO1FOLD0001")
           (combine sample_date (sample_time 9 30)) _ "IRO1FOLD0001"
           [set_candle (sample_instrument "IRO1FOLD0001") (sample_candle 0 None)]
           0 (set_candle (sample_instrument "IRO1FOLD0001") (sample_candle 0 None)));
    reflexivity.
Defined.


Lemma unknown_channels_are_passed_over_witness :
  process_message (fun _ => None) (fun _ => None)
    [("IRO1FOLD0001",
      PyDict [("clienttype", PyList [PyInt 1; PyInt 600]); ("depth", PyNone)])]
    [sample_instrument "IRO1FOLD0001"]
  = Done [sample_instrument "IRO1FOLD0001"].
Proof.
  apply (unknown_channels_are_passed_over (fun _ => None) (fun _ => None)).
  constructor; [|constructor].
  split; [discriminate|].
  eexists. split; [reflexivity|]. repeat constructor.
Defined.

(** ** websocket.py: the channel list under commands *)

Lemma action_keeps_isin (action channel : string)
    (f : ClientConnection -> InstrumentChannel -> InstrumentChannel) :
  get_channel_action_func action channel = inr f ->
  forall client ch, ch_isin (f client ch) = ch_isin ch.
Proof.
  intros Hf client ch. unfold get_channel_action_func in Hf.
  cbn [table_get] in Hf.
  table_cases Hf; try discriminate Hf; injection Hf as <-;
    channel_sets; reflexivity.
Qed.

Lemma subscription_loop_isins (client : ClientConnection)
    (f : ClientConnection -> InstrumentChannel -> InstrumentChannel)
    (g : Instrument -> Exn + PyVal) (instruments : list (option Instrument))
    (isins : list string) :
  (forall c ch, ch_isin (f c ch) = ch_isin ch) ->
  forall counter channels d,
    map ch_isin (fst (subscription_loop client f g instruments counter isins
                        channels d))
    = match channels, isins with
      | [], i :: _ => [i]
      | _, _ => map ch_isin channels
      end.
Proof.
  intros Hf. induction isins as [|i rest IH]; intros counter channels d.
  - simpl. now destruct channels.
  - destruct channels as [|ch others].
    + simpl.
      destruct (instruments !! counter) as [[x|]|]; simpl;
        [destruct (g x); simpl| |]; rewrite ?IH, ?Hf; simpl; rewrite ?Hf;
        reflexivity.
    + simpl.
      destruct (instruments !! counter) as [[x|]|]; simpl;
        [destruct (g x); simpl| |]; rewrite ?IH, ?Hf; simpl; rewrite ?Hf;
        reflexivity.
Qed.

(** X29: no message makes the broker drop, reorder or rename a channel
    record: after a turn of [handle_connection] the list holds the same
    isins in the same order, except that a broker without any channel may
    end with exactly one. *)
Theorem channel_records_are_kept
    (lookup : list Instrument -> list string -> list (option Instrument))
    (repo : list Instrument) (client : ClientConnection) (message : string)
    (channels : list InstrumentChannel) :
  map ch_isin
    (hd_channels (handle_connection_turn lookup repo client message channels))
  = map ch_isin channels
  \/ (channels = []
      /\ length (hd_channels
                   (handle_connection_turn lookup repo client message channels))
         = 1).
Proof.
  assert (Hrem : forall l, map ch_isin (remove_from_channels client l)
                           = map ch_isin l).
  { intros l. unfold remove_from_channels. rewrite map_map. apply map_ext.
    intros ch. apply (unsubscribe_all_members client client ch). }
  assert (Hm : map ch_isin
                 (fst (handle_connection_message lookup repo client message channels))
               = map ch_isin channels
               \/ (channels = []
                   /\ length (fst (handle_connection_message lookup repo client
                                     message channels)) = 1)).
  { unfold handle_connection_message.
    destruct (negb _); [now left|].
    destruct (split_on "." message) as [|a [|c [|ids [|? ?]]]]; try now left.
    destruct (negb (str_in a acceptable_actions)); [now left|].
    destruct (negb (str_in c acceptable_channels)); [now left|].
    destruct (truthy_str _); [now left|].
    destruct (get_channel_action_func a c) as [e|f] eqn:Hf; [now left|].
    destruct (get_initial_data_func a c) as [e|g]; [now left|].
    pose proof (subscription_loop_isins client f g
                  (lookup repo (split_on "," ids)) (split_on "," ids)
                  (action_keeps_isin a c f Hf) 0 channels []) as Hl.
    destruct channels as [|ch others]; [|now left].
    destruct (split_on "," ids) as [|i rest]; [now left|].
    right. split; [reflexivity|].
    apply (f_equal (@length string)) in Hl. now rewrite length_map in Hl. }
  unfold handle_connection_turn.
  destruct (handle_connection_message lookup repo client message channels)
    as [chs [r|e]]; simpl in *.
  - exact Hm.
  - destruct Hm as [Hm|[-> Hm]]; [left; now rewrite Hrem|].
    right. split; [reflexivity|].
    unfold remove_from_channels. now rewrite length_map.
Qed.

Lemma remove_from_channels_clears_witness :
  (7 ∉ trade_subscribers (subscribe_trade 3 (InstrumentChannel_init "IRO1FOLD0001")))
  /\ (7 ∉ orderbook_subscribers
            (subscribe_trade 3 (InstrumentChannel_init "IRO1FOLD0001")))
  /\ (7 ∉ clienttype_subscribers
            (subscribe_trade 3 (InstrumentChannel_init "IRO1FOLD0001"))).
Proof.
  apply (proj1 (proj2 (remove_from_channels_clears 7
                         [subscribe_all 7
                            (subscribe_trade 3
                               (InstrumentChannel_init "IRO1FOLD0001"))]))
           0).
  reflexivity.
Defined.
